(** * Verification model of gpt5.py (webOS 95 vibes)

    Shallow embedding of the three parts of [src/gpt5.py] the properties
    are about:
    - [Terminal]: the Tk [Text] buffer of [TerminalWindow], its key
      handler [_on_key], [_on_return], [handle_command] and
      [_default_commands], with the Tk [Text] class bindings that run
      after [_on_key];
    - [Desktop]: [Win95Window.__init__] (which stops at line 99, where
      [tk.Sizegrip] raises [AttributeError]), the stacking order, the drag
      handlers, [open_terminal] and [_about_dialog];
    - [Metrics]: the headless loop [_pygame_loop] that fills [event_q],
      and the consumer [_schedule_ui_tick].

    The methods of [TerminalWindow] are modelled on the states its
    [Text] widget can be in, as written; in the program as shipped no
    [TerminalWindow] is ever completed (its [Win95Window.__init__] raises
    first, see [Desktop.win95_init_raises]).

    The Tk [Text] content is a list of characters (the text that
    [get("1.0", "end-1c")] returns); Tk indices [line.col] are replaced by
    character offsets, which are ordered the same way as long as the text
    before them is not changed. *)

From Stdlib Require Import Ascii String List Bool Arith Lia ZArith QArith.
Close Scope Q_scope.
Import ListNotations.
Open Scope list_scope.

Module Terminal.

(** Python text as a list of Unicode code points; the Tk [Text] widget
    holds the same characters. *)
Definition char := N.
Definition str := list char.

(** A string literal of the source (all of them are ASCII). *)
Definition s2l (s : string) : str := map N_of_ascii (list_ascii_of_string s).

Definition nl : char := 10%N.

(** [str.isspace()], the test [split()] and [strip()] use
    ([Py_UNICODE_ISSPACE]), in Python 3.11 (Unicode 14.0). *)
Definition is_py_space (c : char) : bool :=
  (N.leb 9 c && N.leb c 13) || (N.leb 28 c && N.leb c 32) ||
  N.eqb c 133 || N.eqb c 160 || N.eqb c 5760 ||
  (N.leb 8192 c && N.leb c 8202) || N.eqb c 8232 || N.eqb c 8233 ||
  N.eqb c 8239 || N.eqb c 8287 || N.eqb c 12288.

Fixpoint py_lstrip (s : str) : str :=
  match s with
  | [] => []
  | c :: s' => if is_py_space c then py_lstrip s' else s
  end.

Definition py_rstrip (s : str) : str := rev (py_lstrip (rev s)).

(** [s.strip()] *)
Definition py_strip (s : str) : str := py_rstrip (py_lstrip s).

(** [s.split()]: runs of whitespace separate words, empty words dropped;
    [cur] is the current word, reversed. *)
Fixpoint py_split_ws_aux (s cur : str) : list str :=
  match s with
  | [] => match cur with [] => [] | _ => [rev cur] end
  | c :: s' =>
      if is_py_space c then
        match cur with
        | [] => py_split_ws_aux s' []
        | _ => rev cur :: py_split_ws_aux s' []
        end
      else py_split_ws_aux s' (c :: cur)
  end.

Definition py_split_ws (s : str) : list str := py_split_ws_aux s [].

(** [s.split("\n")]: keeps empty pieces. *)
Fixpoint py_split_nl_aux (s cur : str) : list str :=
  match s with
  | [] => [rev cur]
  | c :: s' =>
      if N.eqb c nl then rev cur :: py_split_nl_aux s' []
      else py_split_nl_aux s' (c :: cur)
  end.

Definition py_split_nl (s : str) : list str := py_split_nl_aux s [].

(** [" ".join(parts)] *)
Fixpoint py_join_space (parts : list str) : str :=
  match parts with
  | [] => []
  | [p] => p
  | p :: ps => p ++ [32%N] ++ py_join_space ps
  end.

(** ** [str.lower()]

    The tables are those of Python 3.11 (Unicode 14.0), generated from
    the interpreter's own [str.lower].

    [lower_runs]: every character other than U+03A3 whose lowercase form
    is a single other character, as runs [(lo, hi, step, delta)]: the
    characters [lo], [lo + step], ..., [hi] lower to the character [delta]
    further on. *)
Local Open Scope N_scope.

Definition lower_runs : list (N * N * N * Z) := [
  (65, 90, 1, 32%Z); (192, 214, 1, 32%Z); (216, 222, 1, 32%Z); (256, 302, 2, 1%Z);
  (306, 310, 2, 1%Z); (313, 327, 2, 1%Z); (330, 374, 2, 1%Z); (376, 376, 1, (-121)%Z);
  (377, 381, 2, 1%Z); (385, 385, 1, 210%Z); (386, 388, 2, 1%Z); (390, 390, 1, 206%Z);
  (391, 391, 1, 1%Z); (393, 394, 1, 205%Z); (395, 395, 1, 1%Z); (398, 398, 1, 79%Z);
  (399, 399, 1, 202%Z); (400, 400, 1, 203%Z); (401, 401, 1, 1%Z); (403, 403, 1, 205%Z);
  (404, 404, 1, 207%Z); (406, 406, 1, 211%Z); (407, 407, 1, 209%Z); (408, 408, 1, 1%Z);
  (412, 412, 1, 211%Z); (413, 413, 1, 213%Z); (415, 415, 1, 214%Z); (416, 420, 2, 1%Z);
  (422, 422, 1, 218%Z); (423, 423, 1, 1%Z); (425, 425, 1, 218%Z); (428, 428, 1, 1%Z);
  (430, 430, 1, 218%Z); (431, 431, 1, 1%Z); (433, 434, 1, 217%Z); (435, 437, 2, 1%Z);
  (439, 439, 1, 219%Z); (440, 440, 1, 1%Z); (444, 444, 1, 1%Z); (452, 452, 1, 2%Z);
  (453, 453, 1, 1%Z); (455, 455, 1, 2%Z); (456, 456, 1, 1%Z); (458, 458, 1, 2%Z);
  (459, 475, 2, 1%Z); (478, 494, 2, 1%Z); (497, 497, 1, 2%Z); (498, 500, 2, 1%Z);
  (502, 502, 1, (-97)%Z); (503, 503, 1, (-56)%Z); (504, 542, 2, 1%Z); (544, 544, 1, (-130)%Z);
  (546, 562, 2, 1%Z); (570, 570, 1, 10795%Z); (571, 571, 1, 1%Z); (573, 573, 1, (-163)%Z);
  (574, 574, 1, 10792%Z); (577, 577, 1, 1%Z); (579, 579, 1, (-195)%Z); (580, 580, 1, 69%Z);
  (581, 581, 1, 71%Z); (582, 590, 2, 1%Z); (880, 882, 2, 1%Z); (886, 886, 1, 1%Z);
  (895, 895, 1, 116%Z); (902, 902, 1, 38%Z); (904, 906, 1, 37%Z); (908, 908, 1, 64%Z);
  (910, 911, 1, 63%Z); (913, 929, 1, 32%Z); (932, 939, 1, 32%Z); (975, 975, 1, 8%Z);
  (984, 1006, 2, 1%Z); (1012, 1012, 1, (-60)%Z); (1015, 1015, 1, 1%Z); (1017, 1017, 1, (-7)%Z);
  (1018, 1018, 1, 1%Z); (1021, 1023, 1, (-130)%Z); (1024, 1039, 1, 80%Z); (1040, 1071, 1, 32%Z);
  (1120, 1152, 2, 1%Z); (1162, 1214, 2, 1%Z); (1216, 1216, 1, 15%Z); (1217, 1229, 2, 1%Z);
  (1232, 1326, 2, 1%Z); (1329, 1366, 1, 48%Z); (4256, 4293, 1, 7264%Z); (4295, 4295, 1, 7264%Z);
  (4301, 4301, 1, 7264%Z); (5024, 5103, 1, 38864%Z); (5104, 5109, 1, 8%Z); (7312, 7354, 1, (-3008)%Z);
  (7357, 7359, 1, (-3008)%Z); (7680, 7828, 2, 1%Z); (7838, 7838, 1, (-7615)%Z); (7840, 7934, 2, 1%Z);
  (7944, 7951, 1, (-8)%Z); (7960, 7965, 1, (-8)%Z); (7976, 7983, 1, (-8)%Z); (7992, 7999, 1, (-8)%Z);
  (8008, 8013, 1, (-8)%Z); (8025, 8031, 2, (-8)%Z); (8040, 8047, 1, (-8)%Z); (8072, 8079, 1, (-8)%Z);
  (8088, 8095, 1, (-8)%Z); (8104, 8111, 1, (-8)%Z); (8120, 8121, 1, (-8)%Z); (8122, 8123, 1, (-74)%Z);
  (8124, 8124, 1, (-9)%Z); (8136, 8139, 1, (-86)%Z); (8140, 8140, 1, (-9)%Z); (8152, 8153, 1, (-8)%Z);
  (8154, 8155, 1, (-100)%Z); (8168, 8169, 1, (-8)%Z); (8170, 8171, 1, (-112)%Z); (8172, 8172, 1, (-7)%Z);
  (8184, 8185, 1, (-128)%Z); (8186, 8187, 1, (-126)%Z); (8188, 8188, 1, (-9)%Z); (8486, 8486, 1, (-7517)%Z);
  (8490, 8490, 1, (-8383)%Z); (8491, 8491, 1, (-8262)%Z); (8498, 8498, 1, 28%Z); (8544, 8559, 1, 16%Z);
  (8579, 8579, 1, 1%Z); (9398, 9423, 1, 26%Z); (11264, 11311, 1, 48%Z); (11360, 11360, 1, 1%Z);
  (11362, 11362, 1, (-10743)%Z); (11363, 11363, 1, (-3814)%Z); (11364, 11364, 1, (-10727)%Z); (11367, 11371, 2, 1%Z);
  (11373, 11373, 1, (-10780)%Z); (11374, 11374, 1, (-10749)%Z); (11375, 11375, 1, (-10783)%Z); (11376, 11376, 1, (-10782)%Z);
  (11378, 11378, 1, 1%Z); (11381, 11381, 1, 1%Z); (11390, 11391, 1, (-10815)%Z); (11392, 11490, 2, 1%Z);
  (11499, 11501, 2, 1%Z); (11506, 11506, 1, 1%Z); (42560, 42604, 2, 1%Z); (42624, 42650, 2, 1%Z);
  (42786, 42798, 2, 1%Z); (42802, 42862, 2, 1%Z); (42873, 42875, 2, 1%Z); (42877, 42877, 1, (-35332)%Z);
  (42878, 42886, 2, 1%Z); (42891, 42891, 1, 1%Z); (42893, 42893, 1, (-42280)%Z); (42896, 42898, 2, 1%Z);
  (42902, 42920, 2, 1%Z); (42922, 42922, 1, (-42308)%Z); (42923, 42923, 1, (-42319)%Z); (42924, 42924, 1, (-42315)%Z);
  (42925, 42925, 1, (-42305)%Z); (42926, 42926, 1, (-42308)%Z); (42928, 42928, 1, (-42258)%Z); (42929, 42929, 1, (-42282)%Z);
  (42930, 42930, 1, (-42261)%Z); (42931, 42931, 1, 928%Z); (42932, 42946, 2, 1%Z); (42948, 42948, 1, (-48)%Z);
  (42949, 42949, 1, (-42307)%Z); (42950, 42950, 1, (-35384)%Z); (42951, 42953, 2, 1%Z); (42960, 42960, 1, 1%Z);
  (42966, 42968, 2, 1%Z); (42997, 42997, 1, 1%Z); (65313, 65338, 1, 32%Z); (66560, 66599, 1, 40%Z);
  (66736, 66771, 1, 40%Z); (66928, 66938, 1, 39%Z); (66940, 66954, 1, 39%Z); (66956, 66962, 1, 39%Z);
  (66964, 66965, 1, 39%Z); (68736, 68786, 1, 64%Z); (71840, 71871, 1, 32%Z); (93760, 93791, 1, 32%Z);
  (125184, 125217, 1, 34%Z)].

(** The case-ignorable characters (Unicode's [Case_Ignorable]), as
    ranges [(lo, hi)]. *)
Definition case_ignorable : list (N * N) := [
  (39, 39); (46, 46); (58, 58); (94, 94); (96, 96); (168, 168);
  (173, 173); (175, 175); (180, 180); (183, 184); (688, 879); (884, 885);
  (890, 890); (900, 901); (903, 903); (1155, 1161); (1369, 1369); (1375, 1375);
  (1425, 1469); (1471, 1471); (1473, 1474); (1476, 1477); (1479, 1479); (1524, 1524);
  (1536, 1541); (1552, 1562); (1564, 1564); (1600, 1600); (1611, 1631); (1648, 1648);
  (1750, 1757); (1759, 1768); (1770, 1773); (1807, 1807); (1809, 1809); (1840, 1866);
  (1958, 1968); (2027, 2037); (2042, 2042); (2045, 2045); (2070, 2093); (2137, 2139);
  (2184, 2184); (2192, 2193); (2200, 2207); (2249, 2306); (2362, 2362); (2364, 2364);
  (2369, 2376); (2381, 2381); (2385, 2391); (2402, 2403); (2417, 2417); (2433, 2433);
  (2492, 2492); (2497, 2500); (2509, 2509); (2530, 2531); (2558, 2558); (2561, 2562);
  (2620, 2620); (2625, 2626); (2631, 2632); (2635, 2637); (2641, 2641); (2672, 2673);
  (2677, 2677); (2689, 2690); (2748, 2748); (2753, 2757); (2759, 2760); (2765, 2765);
  (2786, 2787); (2810, 2815); (2817, 2817); (2876, 2876); (2879, 2879); (2881, 2884);
  (2893, 2893); (2901, 2902); (2914, 2915); (2946, 2946); (3008, 3008); (3021, 3021);
  (3072, 3072); (3076, 3076); (3132, 3132); (3134, 3136); (3142, 3144); (3146, 3149);
  (3157, 3158); (3170, 3171); (3201, 3201); (3260, 3260); (3263, 3263); (3270, 3270);
  (3276, 3277); (3298, 3299); (3328, 3329); (3387, 3388); (3393, 3396); (3405, 3405);
  (3426, 3427); (3457, 3457); (3530, 3530); (3538, 3540); (3542, 3542); (3633, 3633);
  (3636, 3642); (3654, 3662); (3761, 3761); (3764, 3772); (3782, 3782); (3784, 3789);
  (3864, 3865); (3893, 3893); (3895, 3895); (3897, 3897); (3953, 3966); (3968, 3972);
  (3974, 3975); (3981, 3991); (3993, 4028); (4038, 4038); (4141, 4144); (4146, 4151);
  (4153, 4154); (4157, 4158); (4184, 4185); (4190, 4192); (4209, 4212); (4226, 4226);
  (4229, 4230); (4237, 4237); (4253, 4253); (4348, 4348); (4957, 4959); (5906, 5908);
  (5938, 5939); (5970, 5971); (6002, 6003); (6068, 6069); (6071, 6077); (6086, 6086);
  (6089, 6099); (6103, 6103); (6109, 6109); (6155, 6159); (6211, 6211); (6277, 6278);
  (6313, 6313); (6432, 6434); (6439, 6440); (6450, 6450); (6457, 6459); (6679, 6680);
  (6683, 6683); (6742, 6742); (6744, 6750); (6752, 6752); (6754, 6754); (6757, 6764);
  (6771, 6780); (6783, 6783); (6823, 6823); (6832, 6862); (6912, 6915); (6964, 6964);
  (6966, 6970); (6972, 6972); (6978, 6978); (7019, 7027); (7040, 7041); (7074, 7077);
  (7080, 7081); (7083, 7085); (7142, 7142); (7144, 7145); (7149, 7149); (7151, 7153);
  (7212, 7219); (7222, 7223); (7288, 7293); (7376, 7378); (7380, 7392); (7394, 7400);
  (7405, 7405); (7412, 7412); (7416, 7417); (7468, 7530); (7544, 7544); (7579, 7679);
  (8125, 8125); (8127, 8129); (8141, 8143); (8157, 8159); (8173, 8175); (8189, 8190);
  (8203, 8207); (8216, 8217); (8228, 8228); (8231, 8231); (8234, 8238); (8288, 8292);
  (8294, 8303); (8305, 8305); (8319, 8319); (8336, 8348); (8400, 8432); (11388, 11389);
  (11503, 11505); (11631, 11631); (11647, 11647); (11744, 11775); (11823, 11823); (12293, 12293);
  (12330, 12333); (12337, 12341); (12347, 12347); (12441, 12446); (12540, 12542); (40981, 40981);
  (42232, 42237); (42508, 42508); (42607, 42610); (42612, 42621); (42623, 42623); (42652, 42655);
  (42736, 42737); (42752, 42785); (42864, 42864); (42888, 42890); (42994, 42996); (43000, 43001);
  (43010, 43010); (43014, 43014); (43019, 43019); (43045, 43046); (43052, 43052); (43204, 43205);
  (43232, 43249); (43263, 43263); (43302, 43309); (43335, 43345); (43392, 43394); (43443, 43443);
  (43446, 43449); (43452, 43453); (43471, 43471); (43493, 43494); (43561, 43566); (43569, 43570);
  (43573, 43574); (43587, 43587); (43596, 43596); (43632, 43632); (43644, 43644); (43696, 43696);
  (43698, 43700); (43703, 43704); (43710, 43711); (43713, 43713); (43741, 43741); (43756, 43757);
  (43763, 43764); (43766, 43766); (43867, 43871); (43881, 43883); (44005, 44005); (44008, 44008);
  (44013, 44013); (64286, 64286); (64434, 64450); (65024, 65039); (65043, 65043); (65056, 65071);
  (65106, 65106); (65109, 65109); (65279, 65279); (65287, 65287); (65294, 65294); (65306, 65306);
  (65342, 65342); (65344, 65344); (65392, 65392); (65438, 65439); (65507, 65507); (65529, 65531);
  (66045, 66045); (66272, 66272); (66422, 66426); (67456, 67461); (67463, 67504); (67506, 67514);
  (68097, 68099); (68101, 68102); (68108, 68111); (68152, 68154); (68159, 68159); (68325, 68326);
  (68900, 68903); (69291, 69292); (69446, 69456); (69506, 69509); (69633, 69633); (69688, 69702);
  (69744, 69744); (69747, 69748); (69759, 69761); (69811, 69814); (69817, 69818); (69821, 69821);
  (69826, 69826); (69837, 69837); (69888, 69890); (69927, 69931); (69933, 69940); (70003, 70003);
  (70016, 70017); (70070, 70078); (70089, 70092); (70095, 70095); (70191, 70193); (70196, 70196);
  (70198, 70199); (70206, 70206); (70367, 70367); (70371, 70378); (70400, 70401); (70459, 70460);
  (70464, 70464); (70502, 70508); (70512, 70516); (70712, 70719); (70722, 70724); (70726, 70726);
  (70750, 70750); (70835, 70840); (70842, 70842); (70847, 70848); (70850, 70851); (71090, 71093);
  (71100, 71101); (71103, 71104); (71132, 71133); (71219, 71226); (71229, 71229); (71231, 71232);
  (71339, 71339); (71341, 71341); (71344, 71349); (71351, 71351); (71453, 71455); (71458, 71461);
  (71463, 71467); (71727, 71735); (71737, 71738); (71995, 71996); (71998, 71998); (72003, 72003);
  (72148, 72151); (72154, 72155); (72160, 72160); (72193, 72202); (72243, 72248); (72251, 72254);
  (72263, 72263); (72273, 72278); (72281, 72283); (72330, 72342); (72344, 72345); (72752, 72758);
  (72760, 72765); (72767, 72767); (72850, 72871); (72874, 72880); (72882, 72883); (72885, 72886);
  (73009, 73014); (73018, 73018); (73020, 73021); (73023, 73029); (73031, 73031); (73104, 73105);
  (73109, 73109); (73111, 73111); (73459, 73460); (78896, 78904); (92912, 92916); (92976, 92982);
  (92992, 92995); (94031, 94031); (94095, 94111); (94176, 94177); (94179, 94180); (110576, 110579);
  (110581, 110587); (110589, 110590); (113821, 113822); (113824, 113827); (118528, 118573); (118576, 118598);
  (119143, 119145); (119155, 119170); (119173, 119179); (119210, 119213); (119362, 119364); (121344, 121398);
  (121403, 121452); (121461, 121461); (121476, 121476); (121499, 121503); (121505, 121519); (122880, 122886);
  (122888, 122904); (122907, 122913); (122915, 122916); (122918, 122922); (123184, 123197); (123566, 123566);
  (123628, 123631); (125136, 125142); (125252, 125259); (127995, 127999); (917505, 917505); (917536, 917631);
  (917760, 917999)].

(** The cased characters (Unicode's [Cased]) that are not
    case-ignorable, as ranges; the sigma rule only tests characters that
    are not case-ignorable. *)
Definition cased : list (N * N) := [
  (65, 90); (97, 122); (170, 170); (181, 181); (186, 186); (192, 214);
  (216, 246); (248, 442); (444, 447); (452, 659); (661, 687); (880, 883);
  (886, 887); (891, 893); (895, 895); (902, 902); (904, 906); (908, 908);
  (910, 929); (931, 1013); (1015, 1153); (1162, 1327); (1329, 1366); (1376, 1416);
  (4256, 4293); (4295, 4295); (4301, 4301); (4304, 4346); (4349, 4351); (5024, 5109);
  (5112, 5117); (7296, 7304); (7312, 7354); (7357, 7359); (7424, 7467); (7531, 7543);
  (7545, 7578); (7680, 7957); (7960, 7965); (7968, 8005); (8008, 8013); (8016, 8023);
  (8025, 8025); (8027, 8027); (8029, 8029); (8031, 8061); (8064, 8116); (8118, 8124);
  (8126, 8126); (8130, 8132); (8134, 8140); (8144, 8147); (8150, 8155); (8160, 8172);
  (8178, 8180); (8182, 8188); (8450, 8450); (8455, 8455); (8458, 8467); (8469, 8469);
  (8473, 8477); (8484, 8484); (8486, 8486); (8488, 8488); (8490, 8493); (8495, 8500);
  (8505, 8505); (8508, 8511); (8517, 8521); (8526, 8526); (8544, 8575); (8579, 8580);
  (9398, 9449); (11264, 11387); (11390, 11492); (11499, 11502); (11506, 11507); (11520, 11557);
  (11559, 11559); (11565, 11565); (42560, 42605); (42624, 42651); (42786, 42863); (42865, 42887);
  (42891, 42894); (42896, 42954); (42960, 42961); (42963, 42963); (42965, 42969); (42997, 42998);
  (43002, 43002); (43824, 43866); (43872, 43880); (43888, 43967); (64256, 64262); (64275, 64279);
  (65313, 65338); (65345, 65370); (66560, 66639); (66736, 66771); (66776, 66811); (66928, 66938);
  (66940, 66954); (66956, 66962); (66964, 66965); (66967, 66977); (66979, 66993); (66995, 67001);
  (67003, 67004); (68736, 68786); (68800, 68850); (71840, 71903); (93760, 93823); (119808, 119892);
  (119894, 119964); (119966, 119967); (119970, 119970); (119973, 119974); (119977, 119980); (119982, 119993);
  (119995, 119995); (119997, 120003); (120005, 120069); (120071, 120074); (120077, 120084); (120086, 120092);
  (120094, 120121); (120123, 120126); (120128, 120132); (120134, 120134); (120138, 120144); (120146, 120485);
  (120488, 120512); (120514, 120538); (120540, 120570); (120572, 120596); (120598, 120628); (120630, 120654);
  (120656, 120686); (120688, 120712); (120714, 120744); (120746, 120770); (120772, 120779); (122624, 122633);
  (122635, 122654); (125184, 125251); (127280, 127305); (127312, 127337); (127344, 127369)].

Local Close Scope N_scope.

Definition in_ranges (rs : list (N * N)) (c : char) : bool :=
  existsb (fun r => N.leb (fst r) c && N.leb c (snd r)) rs.

(** The full lowercase form of one character other than U+03A3
    (CPython's [_PyUnicode_ToLowerFull]); U+0130 is the only character
    whose lowercase form has two characters. *)
Definition lower_char (c : char) : str :=
  if N.eqb c 304 then [105%N; 775%N]
  else
    match find (fun '(lo, hi, step, _) =>
                  N.leb lo c && N.leb c hi && N.eqb (N.modulo (c - lo) step) 0)
               lower_runs with
    | Some (_, _, _, delta) => [Z.to_N (Z.of_N c + delta)]
    | None => [c]
    end.

Fixpoint skip_case_ignorable (s : str) : str :=
  match s with
  | [] => []
  | c :: s' => if in_ranges case_ignorable c then skip_case_ignorable s' else s
  end.

(** CPython's [handle_capital_sigma]: U+03A3 lowers to the final sigma
    U+03C2 when the nearest character before it that is not
    case-ignorable is cased, and the nearest one after it that is not
    case-ignorable is not cased or does not exist; otherwise to U+03C3.
    [before] is the text before the sigma, reversed. *)
Definition final_sigma (before after : str) : bool :=
  match skip_case_ignorable before with
  | [] => false
  | c :: _ =>
      in_ranges cased c &&
      match skip_case_ignorable after with
      | [] => true
      | d :: _ => negb (in_ranges cased d)
      end
  end.

Fixpoint py_lower_aux (before s : str) : str :=
  match s with
  | [] => []
  | c :: s' =>
      (if N.eqb c 931 then [if final_sigma before s' then 962%N else 963%N]
       else lower_char c) ++ py_lower_aux (c :: before) s'
  end.

(** [s.lower()] *)
Definition py_lower (s : str) : str := py_lower_aux [] s.

Fixpoint str_eqb (a b : str) : bool :=
  match a, b with
  | [], [] => true
  | x :: a', y :: b' => N.eqb x y && str_eqb a' b'
  | _, _ => false
  end.

(** ** The [Text] widget *)

(** State of a [TerminalWindow]: the text of its Tk [Text] widget, the
    offset of Tk's [insert] mark, the stored [_input_start_idx] (a plain
    Python value, not a Tk mark: edits do not move it),
    [_lock_input_to_end], and the range [first, last) of Tk's [sel] tag
    ([last] may be one past the text: the final newline Tk keeps). *)
Record term := mkTerm {
  text : str;
  ins : nat;
  input_start : nat;
  lock_input_to_end : bool;
  sel : option (nat * nat)
}.

Definition set_ins (st : term) (i : nat) : term :=
  mkTerm (text st) i (input_start st) (lock_input_to_end st) (sel st).

Definition set_input_start (st : term) (i : nat) : term :=
  mkTerm (text st) (ins st) i (lock_input_to_end st) (sel st).

Definition set_sel (st : term) (r : option (nat * nat)) : term :=
  mkTerm (text st) (ins st) (input_start st) (lock_input_to_end st) r.

(** A tag range when [n] characters are inserted at [i]: the new
    characters get the tag when the characters on both sides of [i] have
    it, i.e. when [first < i < last]. *)
Definition sel_insert (i n : nat) (r : option (nat * nat)) : option (nat * nat) :=
  match r with
  | None => None
  | Some (a, b) =>
      Some (if i <=? a then (a + n, b + n) else if i <? b then (a, b + n) else (a, b))
  end.

(** [text.insert(i, s)]: the [insert] mark has right gravity, so a mark at
    or after [i] moves past the new text. *)
Definition tk_insert_at (i : nat) (s : str) (st : term) : term :=
  mkTerm (firstn i (text st) ++ s ++ skipn i (text st))
         (if i <=? ins st then ins st + length s else ins st)
         (input_start st) (lock_input_to_end st)
         (sel_insert i (length s) (sel st)).

(** [text.insert("end", s)]: inserts before the final newline Tk keeps,
    i.e. at offset [len]. *)
Definition tk_insert_end (s : str) (st : term) : term :=
  tk_insert_at (length (text st)) s st.

(** Where an index goes when the characters [a .. b-1] are deleted. *)
Definition idx_delete (a b p : nat) : nat :=
  if p <=? a then p else if p <? b then a else p - (b - a).

(** A tag range after that deletion; a range left empty disappears. *)
Definition sel_delete (a b : nat) (r : option (nat * nat)) : option (nat * nat) :=
  match r with
  | None => None
  | Some (x, y) =>
      let x' := idx_delete a b x in
      let y' := idx_delete a b y in
      if x' <? y' then Some (x', y') else None
  end.

(** [text.delete(a, b)] for [a <= b]: Tk never deletes its final
    newline, so [b] stops at the end of the text. *)
Definition tk_delete (a b : nat) (st : term) : term :=
  let b := Nat.min b (length (text st)) in
  mkTerm (firstn a (text st) ++ skipn b (text st))
         (idx_delete a b (ins st))
         (input_start st) (lock_input_to_end st)
         (sel_delete a b (sel st)).

Definition prompt : str := s2l "C:\webos95> ".

(** [_append_line(s)] *)
Definition append_line (st : term) (s : str) : term :=
  tk_insert_end (s ++ [nl]) st.

(** [_write_prompt()] *)
Definition write_prompt (st : term) : term :=
  let st1 := tk_insert_end prompt st in
  set_input_start st1 (length (text st1)).

(** The keys the model covers: a key typing the character [c], [BackSpace],
    [Delete], [Return] and [Control-h] (whose keysym is [h]). Tk has
    other editing keys ([Control-d], [Control-k], [Meta-BackSpace],
    [<<Cut>>], [<<Paste>>], ...) that are not modelled. *)
Inductive key :=
| KChar (c : char)
| KBackSpace
| KDelete
| KReturn
| KCtrlH.

(** [_on_key(event)]: returns the new state and whether it returned
    ["break"] (only for the keysym [BackSpace]). *)
Definition on_key (st : term) (k : key) : term * bool :=
  let st1 :=
    if lock_input_to_end st && (ins st <? input_start st)
    then set_ins st (length (text st)) else st in
  match k with
  | KBackSpace => (st1, ins st1 <=? input_start st1)
  | _ => (st1, false)
  end.

(** [tk::TextCursorInSelection]: there is a selection and
    [sel.first <= insert <= sel.last]. *)
Definition cursor_in_sel (st : term) : bool :=
  match sel st with
  | Some (a, b) => (a <=? ins st) && (ins st <=? b)
  | None => false
  end.

(** [delete sel.first sel.last] *)
Definition delete_sel (st : term) : term :=
  match sel st with
  | Some (a, b) => tk_delete a b st
  | None => st
  end.

(** Tk's [Text] class bindings for the keys:
    - a character ([tk::TextInsert]): the selection is deleted when the
      cursor is in it, then the character is inserted at [insert];
    - [BackSpace]: deletes the selection when the cursor is in it, else
      [insert-1c] unless [insert] is [1.0];
    - [Delete]: deletes the selection when the cursor is in it, else the
      character at [insert] unless it is the final newline;
    - [Control-h]: deletes [insert-1c] unless [insert] is [1.0];
    - [Return]: [tk::TextInsert] of a newline. *)
Definition text_class_key (st : term) (k : key) : term :=
  match k with
  | KChar c =>
      let st1 := if cursor_in_sel st then delete_sel st else st in
      tk_insert_at (ins st1) [c] st1
  | KBackSpace =>
      if cursor_in_sel st then delete_sel st
      else if ins st =? 0 then st else tk_delete (ins st - 1) (ins st) st
  | KDelete =>
      if cursor_in_sel st then delete_sel st
      else if ins st <? length (text st) then tk_delete (ins st) (S (ins st)) st
      else st
  | KCtrlH =>
      if ins st =? 0 then st else tk_delete (ins st - 1) (ins st) st
  | KReturn =>
      let st1 := if cursor_in_sel st then delete_sel st else st in
      tk_insert_at (ins st1) [nl] st1
  end.

(** The [Text] class binding for [<1>]: a click moves [insert] to the
    clicked index and clears the selection, without going through
    [_on_key]. *)
Definition click (st : term) (p : nat) : term :=
  set_sel (set_ins st (Nat.min p (length (text st)))) None.

(** A press at [a] ([<1>]) then a drag to [b] ([<B1-Motion>],
    [tk::TextSelectTo] in character mode): the characters between [a] and
    [b] are selected and [insert] goes to [b]. *)
Definition drag_select (st : term) (a b : nat) : term :=
  let a := Nat.min a (length (text st)) in
  let b := Nat.min b (length (text st)) in
  set_sel (set_ins (click st a) b)
          (if a =? b then None else Some (Nat.min a b, Nat.max a b)).

Definition help_text : str :=
  s2l "Commands:" ++ [nl] ++
  s2l "  help          Show this help" ++ [nl] ++
  s2l "  echo [text]   Echo text" ++ [nl] ++
  s2l "  time          Show current time" ++ [nl] ++
  s2l "  clear         Clear screen" ++ [nl] ++
  s2l "  about         About this OS" ++ [nl] ++
  s2l "  vibes         Show vibe status" ++ [nl].

(** The em dash U+2014 of the [about] text. *)
Definition em_dash : str := [8212%N].

Definition about_text : str :=
  s2l "webOS 95 Vibes " ++ em_dash ++
  s2l " single shot, Tkinter + Pygame headless loop." ++ [nl] ++
  s2l "Everything 100% in one file. FPS vibes on.".

Section Commands.

(** [time.strftime("%Y-%m-%d %H:%M:%S")] at the moment of the call. *)
Variable now_text : str.
(** The [on_command] argument of [TerminalWindow] ([None] on the
    desktop, which builds the terminal without one). *)
Variable on_command : option (str -> str).

(** [_default_commands(cmd)]: the output, and the buffer after the
    command ([clear] deletes ["1.0"] to ["end"], one past the final
    newline). *)
Definition default_commands (st : term) (cmd : str) : term * str :=
  match py_split_ws cmd with
  | [] => (st, [])
  | first :: args =>
      let name := py_lower first in
      if str_eqb name (s2l "help") || str_eqb name (s2l "?") then (st, help_text)
      else if str_eqb name (s2l "echo") then (st, py_join_space args)
      else if str_eqb name (s2l "time") then (st, now_text)
      else if str_eqb name (s2l "clear") then (tk_delete 0 (S (length (text st))) st, [])
      else if str_eqb name (s2l "about") then (st, about_text)
      else if str_eqb name (s2l "vibes") then
        (st, s2l "Vibes = ON. 600 fps spirit mode.")
      else (st, s2l "Unknown command: " ++ name)
  end.

(** [handle_command(cmd)] *)
Definition handle_command (st : term) (cmd : str) : term :=
  let '(st1, out) :=
    match on_command with
    | Some f => (st, f cmd)
    | None => default_commands st cmd
    end in
  match out with
  | [] => st1
  | _ => fold_left append_line (py_split_nl out) st1
  end.

(** [self.text.get(self._input_start_idx, "end-1c")] *)
Definition input_line (st : term) : str := skipn (input_start st) (text st).

(** [_on_return(event)] *)
Definition on_return (st : term) : term :=
  let line := input_line st in
  let cmd := py_strip line in
  let st1 := append_line st [] in
  let st2 := handle_command st1 cmd in
  write_prompt st2.

(** A key event on the [Text] widget: the widget binding for [<Return>]
    is more specific than the one for [<Key>], and both bindings that
    return ["break"] stop the class binding. *)
Definition key_event (st : term) (k : key) : term :=
  match k with
  | KReturn => on_return st
  | _ =>
      let '(st1, brk) := on_key st k in
      if brk then st1 else text_class_key st1 k
  end.

(** Edits of the current input: typed characters, [BackSpace], [Delete],
    and clicks that move the cursor in between. *)
Inductive edit_op :=
| EChar (c : char)
| EBackSpace
| EDelete
| EClick (p : nat).

Definition edit_step (st : term) (e : edit_op) : term :=
  match e with
  | EChar c => key_event st (KChar c)
  | EBackSpace => key_event st KBackSpace
  | EDelete => key_event st KDelete
  | EClick p => click st p
  end.

Definition run_edits (st : term) (ops : list edit_op) : term :=
  fold_left edit_step ops st.

End Commands.

(** States the widget can be in: [_input_start_idx] and [insert] lie in
    the text, and [_lock_input_to_end] is set (it is set in [__init__] and
    never cleared). *)
Definition term_wf (st : term) : Prop :=
  input_start st <= length (text st) /\ ins st <= length (text st) /\
  lock_input_to_end st = true.

(** The cursor lies in the text and the clamp flag is set. *)
Definition bounded (st : term) : Prop :=
  ins st <= length (text st) /\ lock_input_to_end st = true.

End Terminal.

Module Desktop.
Open Scope Z_scope.

(** The widgets a [Win95Window] is made of: the frame itself, its title
    bar and title label, the close button, the content frame, a [Text]
    widget inside the content (the terminal's), and the size grip. *)
Inductive part := PFrame | PTitlebar | PTitleLabel | PCloseButton | PContent | PText | PGrip.

Definition part_eqb (a b : part) : bool :=
  match a, b with
  | PFrame, PFrame | PTitlebar, PTitlebar | PTitleLabel, PTitleLabel
  | PCloseButton, PCloseButton | PContent, PContent | PText, PText
  | PGrip, PGrip => true
  | _, _ => false
  end.

(** Tk event sequences used by the bindings. *)
Inductive seq := ButtonPress1 | B1Motion | ButtonRelease1.

Definition seq_eqb (a b : seq) : bool :=
  match a, b with
  | ButtonPress1, ButtonPress1 | B1Motion, B1Motion
  | ButtonRelease1, ButtonRelease1 => true
  | _, _ => false
  end.

(** Tk's parser of event patterns: [Button] is a synonym of
    [ButtonPress], so ["<Button-1>"] and ["<ButtonPress-1>"] are the same
    sequence. *)
Definition parse_seq (s : string) : option seq :=
  if String.eqb s "<ButtonPress-1>" || String.eqb s "<Button-1>" then Some ButtonPress1
  else if String.eqb s "<B1-Motion>" then Some B1Motion
  else if String.eqb s "<ButtonRelease-1>" then Some ButtonRelease1
  else None.

(** The callbacks bound by [Win95Window.__init__]: the three drag
    methods and the [lambda e: self.lift()]. *)
Inductive handler := OnDragStart | OnDragMove | OnDragEnd | Lift.

Definition table := list (part * seq * handler).

(** [widget.bind(sequence, func)]: without ["+"], a new binding replaces
    the widget's binding for the same sequence. *)
Definition tk_bind (tbl : table) (w : part) (s : string) (h : handler) : table :=
  match parse_seq s with
  | Some q =>
      (w, q, h) :: filter (fun '(w', q', _) => negb (part_eqb w w' && seq_eqb q q')) tbl
  | None => tbl
  end.

(** The widget classes module [tkinter] defines. [Sizegrip] is not one
    of them: it is [tkinter.ttk.Sizegrip], and [from tkinter import ttk]
    does not add it to [tkinter]. *)
Definition tkinter_widgets : list string :=
  ["Tk"; "Toplevel"; "Frame"; "Label"; "Button"; "Canvas"; "Checkbutton";
   "Entry"; "Listbox"; "Menu"; "Menubutton"; "Message"; "Radiobutton";
   "Scale"; "Scrollbar"; "Text"; "OptionMenu"; "Spinbox"; "LabelFrame";
   "PanedWindow"]%string.

(** The statements of [Win95Window.__init__] after [self.place] (line
    68) and [self._drag = ...] (line 70) that create widgets or bindings. *)
Inductive init_stmt :=
| IWidget (p : part) (cls : string)
| IBind (p : part) (s : string) (h : handler).

(** Lines 72 to 111, in order: [tk.Frame] (title bar), [tk.Label],
    [tk.Button] (close button, [command=self.destroy_window]), [tk.Frame]
    (content), [tk.Sizegrip] (line 99), the drag bindings of the title
    bar and the title label (lines 103 to 106), the three [<Button-1>]
    bindings (lines 109 to 111). *)
Definition win95_init_body : list init_stmt :=
  [IWidget PTitlebar "Frame"; IWidget PTitleLabel "Label";
   IWidget PCloseButton "Button"; IWidget PContent "Frame";
   IWidget PGrip "Sizegrip";
   IBind PTitlebar "<ButtonPress-1>" OnDragStart;
   IBind PTitlebar "<B1-Motion>" OnDragMove;
   IBind PTitlebar "<ButtonRelease-1>" OnDragEnd;
   IBind PTitleLabel "<ButtonPress-1>" OnDragStart;
   IBind PTitleLabel "<B1-Motion>" OnDragMove;
   IBind PTitleLabel "<ButtonRelease-1>" OnDragEnd;
   IBind PFrame "<Button-1>" Lift;
   IBind PTitlebar "<Button-1>" Lift;
   IBind PTitleLabel "<Button-1>" Lift]%string.

(** Runs the statements: [tk.X] for a name [tkinter] lacks raises
    [AttributeError], which ends [__init__]. The result is the bindings
    made so far and whether [__init__] raised. *)
Fixpoint run_init (body : list init_stmt) (tbl : table) : table * bool :=
  match body with
  | [] => (tbl, false)
  | IWidget _ cls :: body' =>
      if existsb (String.eqb cls) tkinter_widgets then run_init body' tbl else (tbl, true)
  | IBind p s h :: body' => run_init body' (tk_bind tbl p s h)
  end.

(** The bindings every [Win95Window] has. *)
Definition win95_bindings : table := fst (run_init win95_init_body []).

(** Whether [Win95Window(...)] raises. *)
Definition win95_init_raises : bool := snd (run_init win95_init_body []).

(** The callback Tk runs for an event on a widget: only that widget's own
    binding (a child's events do not reach its parent's bindings). *)
Fixpoint lookup_binding (tbl : table) (w : part) (q : seq) : option handler :=
  match tbl with
  | [] => None
  | (w', q', h) :: tbl' =>
      if part_eqb w w' && seq_eqb q q' then Some h else lookup_binding tbl' w q
  end.

(** A [Win95Window]: its placed position and [self._drag]. *)
Record window := mkWin {
  win_x : Z;
  win_y : Z;
  drag_x : Z;
  drag_y : Z;
  drag_active : bool
}.

(** Runs a callback on event coordinates [(ex, ey)] (relative to the
    widget that got the event); the boolean says whether it called
    [self.lift()]. *)
Definition run_handler (h : handler) (win : window) (ex ey : Z) : window * bool :=
  match h with
  | OnDragStart => (mkWin (win_x win) (win_y win) ex ey true, true)
  | OnDragMove =>
      if negb (drag_active win) then (win, false)
      else
        let dx := ex - drag_x win in
        let dy := ey - drag_y win in
        let x := win_x win + dx in
        let y := win_y win + dy in
        (mkWin x y (drag_x win) (drag_y win) (drag_active win), false)
  | OnDragEnd => (mkWin (win_x win) (win_y win) (drag_x win) (drag_y win) false, false)
  | Lift => (win, true)
  end.

(** The desktop: the stacking order of the windows (back to front), the
    windows by id, the window holding Tk's keyboard focus ([None]: the
    focus is on the desktop toplevel or nowhere) and the next id.
    [Win95Window] keeps no focus state of its own. *)
Record desk := mkDesk {
  stack : list nat;
  wins : list (nat * window);
  kfocus : option nat;
  next_id : nat
}.

Definition init_desk : desk := mkDesk [] [] None 0.

Fixpoint get_win (ws : list (nat * window)) (w : nat) : option window :=
  match ws with
  | [] => None
  | (v, win) :: ws' => if Nat.eqb v w then Some win else get_win ws' w
  end.

Fixpoint set_win (ws : list (nat * window)) (w : nat) (win : window) : list (nat * window) :=
  match ws with
  | [] => []
  | (v, win') :: ws' =>
      if Nat.eqb v w then (v, win) :: ws' else (v, win') :: set_win ws' w win
  end.

Definition remove_id (l : list nat) (w : nat) : list nat :=
  filter (fun v => negb (Nat.eqb v w)) l.

(** [lift()]: the window goes on top of its siblings. *)
Definition lift (l : list nat) (w : nat) : list nat := remove_id l w ++ [w].

(** [Win95Window(master, x=x, y=y)] up to the point where it raises: the
    frame is created and placed (line 68), on top of its siblings, with
    [_drag] set; its title bar, label, close button and content are
    created; no binding is made ([win95_bindings]). *)
Definition open_window (d : desk) (x y : Z) : desk :=
  mkDesk (stack d ++ [next_id d])
         (wins d ++ [(next_id d, mkWin x y 0 0 false)])
         (kfocus d) (S (next_id d)).

(** [destroy_window()] (the close button's command): the window and its
    widgets are destroyed; Tk moves a keyboard focus that was inside them
    to the toplevel. *)
Definition close_window (d : desk) (w : nat) : desk :=
  mkDesk (remove_id (stack d) w)
         (filter (fun '(v, _) => negb (Nat.eqb v w)) (wins d))
         (match kfocus d with
          | Some v => if Nat.eqb v w then None else Some v
          | None => None
          end)
         (next_id d).

(** The keyboard focus reaches window [w]: its close button is the only
    widget of a window that takes the focus, which Tab traversal
    ([tk_focusNext]) gives it. *)
Definition focus_window (d : desk) (w : nat) : desk :=
  match get_win (wins d) w with
  | Some _ => mkDesk (stack d) (wins d) (Some w) (next_id d)
  | None => d
  end.

Section Pointer.

(** Offset of each widget inside its window (the frame's border, the
    title bar height, ...); Tk reports event coordinates relative to the
    widget that gets the event. *)
Variable part_off : part -> Z * Z.

(** A mouse event at desktop position [(px, py)] on widget [p] of window
    [w] (a click on the close button is [close_window]). The widget's own
    binding runs, with the window's current position, i.e. each [place]
    has been applied before the next event. *)
Definition pointer (d : desk) (w : nat) (p : part) (q : seq) (px py : Z) : desk :=
  match get_win (wins d) w with
  | None => d
  | Some win =>
      match lookup_binding win95_bindings p q with
      | None => d
      | Some h =>
          let ex := px - win_x win - fst (part_off p) in
          let ey := py - win_y win - snd (part_off p) in
          let '(win', lifted) := run_handler h win ex ey in
          mkDesk (if lifted then lift (stack d) w else stack d)
                 (set_win (wins d) w win') (kfocus d) (next_id d)
      end
  end.

(** One drag gesture on widget [p] of window [w]: a press, motions (Tk
    sends them, and the release, to the pressed widget), a release. *)
Definition gesture (d : desk) (w : nat) (p : part) (press : Z * Z)
  (motions : list (Z * Z)) (release : Z * Z) : desk :=
  let d1 := pointer d w p ButtonPress1 (fst press) (snd press) in
  let d2 := fold_left (fun d m => pointer d w p B1Motion (fst m) (snd m)) motions d1 in
  pointer d2 w p ButtonRelease1 (fst release) (snd release).

End Pointer.

(** Widget offsets used in the concrete runs: every widget two pixels in,
    the width of the frame's [bd=2] border. *)
Definition std_off (_ : part) : Z * Z := (2, 2).

(** [RetroDesktop] as far as its windows go: the desktop and
    [self.terminal] ([None] from [__init__] on). *)
Record app := mkApp { adesk : desk; terminal : option nat }.

Definition init_app : app := mkApp init_desk None.

(** [w.lift()] called from Python on a live window. *)
Definition raise_window (d : desk) (w : nat) : desk :=
  mkDesk (lift (stack d) w) (wins d) (kfocus d) (next_id d).

(** [open_terminal()]: while [self.terminal] is a live window it is
    lifted ([winfo_exists()] holds until the window is destroyed, and
    [lift()] on a live window does not raise). Otherwise
    [TerminalWindow(self, w=560, h=320, x=120, y=120)] runs
    [Win95Window.__init__], which places a window at [(120, 120)]; when
    that raises, the exception leaves [open_terminal] before the
    assignment to [self.terminal]. *)
Definition open_terminal (a : app) : app :=
  let created := open_window (adesk a) 120 120 in
  let fresh :=
    if win95_init_raises then mkApp created (terminal a)
    else mkApp created (Some (next_id (adesk a))) in
  match terminal a with
  | Some t =>
      match get_win (wins (adesk a)) t with
      | Some _ => mkApp (raise_window (adesk a) t) (Some t)
      | None => fresh
      end
  | None => fresh
  end.

(** [_about_dialog()]: [Win95Window(...)] places a window at
    [(180, 160)]; when it raises, the label is not made. *)
Definition about_dialog (a : app) : app :=
  mkApp (open_window (adesk a) 180 160) (terminal a).

(** What the user can do: the start menu's [Open Terminal] and [About]
    items, the desktop's terminal icon and the [after(300, open_terminal)]
    of [__init__]; mouse events on a window; Tab traversal to a window's
    close button; its click. *)
Inductive app_op :=
| AOpenTerminal
| AAbout
| APointer (w : nat) (p : part) (q : seq) (px py : Z)
| AFocus (w : nat)
| AClose (w : nat).

Definition app_step (part_off : part -> Z * Z) (a : app) (o : app_op) : app :=
  match o with
  | AOpenTerminal => open_terminal a
  | AAbout => about_dialog a
  | APointer w p q px py => mkApp (pointer part_off (adesk a) w p q px py) (terminal a)
  | AFocus w => mkApp (focus_window (adesk a) w) (terminal a)
  | AClose w => mkApp (close_window (adesk a) w) (terminal a)
  end.

Definition run_app (part_off : part -> Z * Z) (a : app) (ops : list app_op) : app :=
  fold_left (app_step part_off) ops a.

(** The stacking order lists each window once, exactly the windows of
    the desktop, all with ids below the next one; the keyboard focus, when
    on a window, is on one of them. *)
Definition desk_inv (d : desk) : Prop :=
  NoDup (stack d) /\ NoDup (map fst (wins d)) /\
  (forall v, In v (stack d) <-> In v (map fst (wins d))) /\
  (forall v, In v (stack d) -> (v < next_id d)%nat) /\
  (forall v, kfocus d = Some v -> In v (stack d)).

End Desktop.

Module Metrics.

Section Loop.

(** Python floats, kept abstract: the claims are about which values the
    loop computes and hands over, not about rounding. *)
Variable R : Type.
Variables r_zero r_two r_pi r_thousand r_quarter : R.
Variables r_add r_sub r_mul r_div : R -> R -> R.
(** [a >= b] *)
Variable r_geb : R -> R -> bool.
(** [float(n)] for a Python int. *)
Variable r_of_Z : Z -> R.
(** [f"FPS: {int(round(v))}"] *)
Variable fps_label : R -> string.

(** The dicts put on [event_q]. *)
Record evt := mkEvt { etype : string; evalue : option R }.

Definition fps_event (v : R) : evt := mkEvt "fps" (Some v).

(** [queue.Queue()] without a bound: [put_nowait] appends and never
    raises [Full]. *)
Definition put_nowait (q : list evt) (e : evt) : list evt := q ++ [e].

(** [get_nowait()]: [None] is the [queue.Empty] exception. *)
Definition get_nowait (q : list evt) : option (evt * list evt) :=
  match q with
  | [] => None
  | e :: q' => Some (e, q')
  end.

(** The locals of [_pygame_loop]. *)
Record loop_state := mkLoop {
  acc_time : R;
  frames : Z;
  last_report : R;
  phase : R
}.

(** State before the first tick, [last_report = time.time()]. *)
Definition loop_start (now : R) : loop_state := mkLoop r_zero 0 now r_zero.

(** One iteration of [while self.running]: [clock.tick(target_fps)]
    returned [dt_ms] and [time.time()] returned [now]. *)
Definition loop_tick (st : loop_state) (q : list evt) (dt_ms : Z) (now : R)
  : loop_state * list evt :=
  let dt := r_div (r_of_Z dt_ms) r_thousand in
  let frames1 := (frames st + 1)%Z in
  let acc1 := r_add (acc_time st) dt in
  let phase1 := r_add (phase st) (r_mul (r_mul dt r_two) r_pi) in
  if r_geb (r_sub now (last_report st)) r_quarter then
    let fps := r_div (r_of_Z frames1) (r_sub now (last_report st)) in
    (mkLoop acc1 0 now phase1, put_nowait q (fps_event fps))
  else (mkLoop acc1 frames1 (last_report st) phase1, q).

(** What [_schedule_ui_tick] reads and writes: [event_q],
    [self.fps_value] and the taskbar's FPS label. *)
Record ui_state := mkUi {
  queue : list evt;
  fps_value : R;
  fps_text : string
}.

(** The [while True: get_nowait()] loop: every [fps] event sets
    [fps_value] to its [value] (default [0.0]), a [vibe] event or any other
    is skipped; it stops at [queue.Empty]. *)
Fixpoint drain (q : list evt) (v : R) : R :=
  match q with
  | [] => v
  | e :: q' =>
      let v' :=
        if String.eqb (etype e) "fps" then
          match evalue e with Some x => x | None => r_zero end
        else v in
      drain q' v'
  end.

(** [_schedule_ui_tick()]: drains the queue, then sets the label. *)
Definition ui_tick (u : ui_state) : ui_state :=
  let v := drain (queue u) (fps_value u) in
  mkUi [] v (fps_label v).

(** The producer's [put_nowait] on the shared queue. *)
Definition publish (u : ui_state) (e : evt) : ui_state :=
  mkUi (put_nowait (queue u) e) (fps_value u) (fps_text u).

(** Successive iterations of the loop, each with the [clock.tick] result
    and the [time.time()] reading. *)
Definition run_loop (st : loop_state) (q : list evt) (ticks : list (Z * R))
  : loop_state * list evt :=
  fold_left (fun '(st, q) '(dt_ms, now) => loop_tick st q dt_ms now) ticks (st, q).

End Loop.

Local Open Scope Q_scope.

(** Floats read as rationals, for the concrete runs. *)
Definition q_geb (a b : Q) : bool := Qle_bool b a.

Definition q_tick := loop_tick Q 2 (314 # 100) 1000 (1 # 4) Qplus Qminus Qmult Qdiv q_geb inject_Z.

(** The taskbar label as the source formats it, for the concrete runs
    (only the values below occur). *)
Definition q_label (v : Q) : string :=
  if Qeq_bool v 60 then "FPS: 60" else if Qeq_bool v 0 then "FPS: 0" else "FPS: ?".

End Metrics.
Module TerminalFacts.
Import Terminal.

Lemma firstn_app_short (n : nat) (a b : str) :
  n <= length a -> firstn n (a ++ b) = firstn n a.
Proof.
  intro H. rewrite firstn_app.
  replace (n - length a) with 0 by lia. simpl. apply app_nil_r.
Qed.

Lemma firstn_firstn_le (n m : nat) (t : str) :
  n <= m -> firstn n (firstn m t) = firstn n t.
Proof.
  intro H. rewrite firstn_firstn. f_equal. lia.
Qed.

Lemma py_lstrip_space_prefix (w x : str) :
  forallb is_py_space w = true -> py_lstrip (w ++ x) = py_lstrip x.
Proof.
  induction w as [|c w IH]; simpl; [reflexivity|].
  intro H. apply andb_prop in H as [Hc Hw]. rewrite Hc. auto.
Qed.

Lemma py_lstrip_all_space (w : str) :
  forallb is_py_space w = true -> py_lstrip w = [].
Proof.
  intro H. rewrite <- (app_nil_r w). rewrite py_lstrip_space_prefix; auto.
Qed.

Lemma py_lstrip_app (s t : str) :
  py_lstrip (s ++ t) =
  if forallb is_py_space s then py_lstrip t else py_lstrip s ++ t.
Proof.
  induction s as [|c s IH]; simpl; [reflexivity|].
  destruct (is_py_space c); simpl; auto.
Qed.

Lemma forallb_rev_iff (f : char -> bool) (l : str) :
  forallb f (rev l) = forallb f l.
Proof.
  induction l as [|a l IH]; simpl; [reflexivity|].
  rewrite forallb_app, IH. simpl. rewrite andb_true_r. apply andb_comm.
Qed.

Lemma py_rstrip_space_suffix (a w : str) :
  forallb is_py_space w = true -> py_rstrip (a ++ w) = py_rstrip a.
Proof.
  intro H. unfold py_rstrip. rewrite rev_app_distr.
  rewrite py_lstrip_space_prefix; [reflexivity|].
  rewrite forallb_rev_iff. exact H.
Qed.

(** Surrounding whitespace does not reach [strip()]'s result. *)
Lemma py_strip_surrounding (ws1 s ws2 : str) :
  forallb is_py_space ws1 = true -> forallb is_py_space ws2 = true ->
  py_strip (ws1 ++ s ++ ws2) = py_strip s.
Proof.
  intros H1 H2. unfold py_strip.
  rewrite py_lstrip_space_prefix by exact H1.
  rewrite py_lstrip_app.
  destruct (forallb is_py_space s) eqn:Hs.
  - rewrite (py_lstrip_all_space ws2 H2), (py_lstrip_all_space s Hs).
    reflexivity.
  - apply py_rstrip_space_suffix. exact H2.
Qed.

Lemma text_delete_all (st : term) :
  text (tk_delete 0 (S (length (text st))) st) = [].
Proof.
  unfold tk_delete. cbn [text]. rewrite Nat.min_r by lia. simpl. apply skipn_all.
Qed.

(** Decide the comparisons of an [if] by their truth. *)
Ltac case_cmp :=
  repeat match goal with
  | |- context [?a <=? ?b] => destruct (Nat.leb_spec a b)
  | |- context [?a <? ?b] => destruct (Nat.ltb_spec a b)
  | |- context [?a =? ?b] => destruct (Nat.eqb_spec a b)
  end.

Ltac len_simpl :=
  repeat rewrite ?length_app, ?length_firstn, ?length_skipn; simpl length.

(** Evaluate the comparisons of literal strings. *)
Ltac eval_str_eqb :=
  repeat match goal with
  | |- context [str_eqb (s2l ?a) (s2l ?b)] =>
      let v := eval vm_compute in (str_eqb (s2l a) (s2l b)) in
      change (str_eqb (s2l a) (s2l b)) with v
  end.

(** [_on_key] moves a cursor lying before [_input_start_idx] to the end
    of the text and changes nothing else. *)
Lemma on_key_clamp (st : term) (k : key) (Hwf : term_wf st) :
  ins (fst (on_key st k)) =
    (if ins st <? input_start st then length (text st) else ins st) /\
  input_start st <= ins (fst (on_key st k)) /\
  text (fst (on_key st k)) = text st /\
  input_start (fst (on_key st k)) = input_start st /\
  sel (fst (on_key st k)) = sel st /\
  term_wf (fst (on_key st k)).
Proof.
  destruct st as [t i is l s]; destruct Hwf as (H1 & H2 & H3).
  simpl in *; subst l; unfold on_key; simpl.
  destruct (Nat.ltb_spec i is); destruct k; simpl;
    repeat split; simpl; lia.
Qed.

Lemma key_event_not_return (now : str) (oc : option (str -> str)) (st : term) (k : key) :
  k <> KReturn ->
  key_event now oc st k =
  if snd (on_key st k) then fst (on_key st k) else text_class_key (fst (on_key st k)) k.
Proof.
  intros Hk. unfold key_event.
  destruct k; [| | |congruence|]; destruct (on_key _ _); reflexivity.
Qed.

(** The [Text] class binding for a typed character, [BackSpace] or
    [Delete], run with no selection from a cursor at or after
    [_input_start_idx] (strictly after it for [BackSpace]), leaves the
    text before [_input_start_idx] as it was, and makes no selection. *)
Lemma class_key_keeps_prefix (st : term) (k : key)
  (Hk : k <> KReturn) (Hh : k <> KCtrlH) (Hwf : term_wf st) (Hsel : sel st = None)
  (Hge : input_start st <= ins st)
  (Hbs : k = KBackSpace -> input_start st < ins st) :
  term_wf (text_class_key st k) /\
  sel (text_class_key st k) = None /\
  input_start (text_class_key st k) = input_start st /\
  firstn (input_start st) (text (text_class_key st k)) =
    firstn (input_start st) (text st).
Proof.
  destruct st as [t i is l s]; destruct Hwf as (H1 & H2 & H3).
  unfold term_wf; simpl in *; subst s.
  destruct k as [c| | | |]; unfold text_class_key, cursor_in_sel; simpl.
  - rewrite Nat.leb_refl. len_simpl.
    split; [repeat split; simpl; [len_simpl; lia | len_simpl; lia | exact H3]|].
    split; [reflexivity|]. split; [reflexivity|].
    rewrite firstn_app_short by (len_simpl; lia).
    apply firstn_firstn_le; lia.
  - specialize (Hbs eq_refl).
    destruct (Nat.eqb_spec i 0); [lia|]. unfold tk_delete, idx_delete.
    cbn [text ins input_start lock_input_to_end sel]. rewrite Nat.min_l by lia. simpl.
    split; [repeat split; simpl; [len_simpl; lia | case_cmp; len_simpl; lia | exact H3]|].
    split; [reflexivity|]. split; [reflexivity|].
    rewrite firstn_app_short by (len_simpl; lia).
    apply firstn_firstn_le; lia.
  - destruct (Nat.ltb_spec i (length t)); unfold tk_delete, idx_delete;
      cbn [text ins input_start lock_input_to_end sel].
    + rewrite Nat.min_l by lia. simpl.
      split; [repeat split; simpl; [len_simpl; lia | case_cmp; len_simpl; lia | exact H3]|].
      split; [reflexivity|]. split; [reflexivity|].
      rewrite firstn_app_short by (len_simpl; lia).
      apply firstn_firstn_le; lia.
    + split; [repeat split; simpl; try lia; exact H3|]. repeat split.
  - congruence.
  - congruence.
Qed.

Lemma default_commands_clear (now : str) (st : term) :
  default_commands now st (s2l "clear") = (tk_delete 0 (S (length (text st))) st, []).
Proof. reflexivity. Qed.

Section Facts.

Variable now_text : str.
Variable on_command : option (str -> str).

(** C5: right after [_on_return], [_input_start_idx] is the end of the
    text, which contains the newly written prompt. *)
Theorem on_return_input_start_at_end (st : term) :
  input_start (on_return now_text on_command st) =
  length (text (on_return now_text on_command st)).
Proof. reflexivity. Qed.

(** C6: [BackSpace] with the cursor exactly at [_input_start_idx] returns
    ["break"] from [_on_key]: the buffer (text, cursor, input start,
    selection) is left as it was, and no error is raised (the model is
    total). *)
Theorem backspace_at_input_start_noop (st : term)
  (Hat : ins st = input_start st) :
  key_event now_text on_command st KBackSpace = st.
Proof.
  unfold key_event, on_key.
  rewrite Hat, Nat.ltb_irrefl, andb_false_r. cbn iota.
  rewrite Hat, Nat.leb_refl. reflexivity.
Qed.

(** C9: on [Return] the command handed to [handle_command] is the input
    line after [strip()]: if the text from [_input_start_idx] to the end
    is [ws1 ++ s ++ ws2] with [ws1] and [ws2] whitespace (in Python's
    sense), the command is [strip(s)], the same for every such [ws1] and
    [ws2]. *)
Theorem on_return_dispatches_stripped (st : term) (ws1 s ws2 : str)
  (Hws1 : forallb is_py_space ws1 = true)
  (Hws2 : forallb is_py_space ws2 = true)
  (Hline : input_line st = ws1 ++ s ++ ws2) :
  on_return now_text on_command st =
  write_prompt (handle_command now_text on_command (append_line st []) (py_strip s)).
Proof.
  unfold on_return. rewrite Hline, py_strip_surrounding by assumption.
  reflexivity.
Qed.

Lemma edit_step_keeps_prefix (st : term) (e : edit_op) (Hwf : term_wf st)
  (Hsel : sel st = None) :
  term_wf (edit_step now_text on_command st e) /\
  sel (edit_step now_text on_command st e) = None /\
  input_start (edit_step now_text on_command st e) = input_start st /\
  firstn (input_start st) (text (edit_step now_text on_command st e)) =
    firstn (input_start st) (text st).
Proof.
  assert (Hkey : forall k, k <> KReturn -> k <> KCtrlH ->
    term_wf (key_event now_text on_command st k) /\
    sel (key_event now_text on_command st k) = None /\
    input_start (key_event now_text on_command st k) = input_start st /\
    firstn (input_start st) (text (key_event now_text on_command st k)) =
      firstn (input_start st) (text st)).
  { intros k Hk Hh.
    destruct (on_key_clamp st k Hwf) as (_ & Hge & Ht & Hi & Hs & Hwf1).
    rewrite key_event_not_return by exact Hk.
    destruct (snd (on_key st k)) eqn:Hbrk.
    - split; [exact Hwf1|]. split; [congruence|]. split; [exact Hi|].
      rewrite Ht. reflexivity.
    - destruct (class_key_keeps_prefix (fst (on_key st k)) k Hk Hh Hwf1)
        as (Hw2 & Hs2 & Hi2 & Hp2).
      + congruence.
      + rewrite Hi. exact Hge.
      + intros ->. unfold on_key in Hbrk |- *. simpl in Hbrk |- *.
        apply Nat.leb_gt in Hbrk. exact Hbrk.
      + split; [exact Hw2|]. split; [exact Hs2|]. rewrite Hi2, Hi. split; [reflexivity|].
        rewrite <- Hi, Hp2, Hi, Ht. reflexivity. }
  destruct e as [c| | |p].
  - exact (Hkey (KChar c) ltac:(discriminate) ltac:(discriminate)).
  - exact (Hkey KBackSpace ltac:(discriminate) ltac:(discriminate)).
  - exact (Hkey KDelete ltac:(discriminate) ltac:(discriminate)).
  - destruct st as [t i is l s]; destruct Hwf as (H1 & H2 & H3).
    unfold click, set_ins, set_sel, term_wf; simpl in *.
    repeat split; try lia; exact H3.
Qed.

(** X: with no selection, typed characters, [BackSpace] and [Delete],
    with clicks that move the cursor anywhere in between, never change
    the text before [_input_start_idx], and [_input_start_idx] stays put:
    [_on_key] moves a cursor lying before [_input_start_idx] to the end
    of the text and blocks [BackSpace] at [_input_start_idx]. *)
Theorem edits_keep_committed_text (st : term) (ops : list edit_op)
  (Hwf : term_wf st) (Hsel : sel st = None) :
  term_wf (run_edits now_text on_command st ops) /\
  input_start (run_edits now_text on_command st ops) = input_start st /\
  firstn (input_start st) (text (run_edits now_text on_command st ops)) =
    firstn (input_start st) (text st).
Proof.
  unfold run_edits. revert st Hwf Hsel.
  induction ops as [|e ops IH]; intros st Hwf Hsel; simpl.
  - auto.
  - destruct (edit_step_keeps_prefix st e Hwf Hsel) as (Hw1 & Hs1 & Hi1 & Hp1).
    destruct (IH _ Hw1 Hs1) as (Hw2 & Hi2 & Hp2).
    split; [exact Hw2|]. split; [congruence|].
    rewrite Hi1 in Hp2. rewrite Hp2. exact Hp1.
Qed.

End Facts.

(** C2, failing input. A committed line [dir] and the prompt, the cursor
    at [_input_start_idx] (16), no selection: [Control-h] passes
    [_on_key] (its keysym is [h], not [BackSpace]) and Tk's [Text]
    binding deletes the character before the cursor, the prompt's last
    space. With [ab] typed after the prompt, a mouse drag from the start
    of the text to its end selects everything and leaves the cursor at
    the end, after [_input_start_idx]; typing [x] then replaces the whole
    selection, committed line and prompt included, with [x]. *)
Theorem committed_text_edited :
  let st := mkTerm (s2l "dir" ++ [nl] ++ prompt) 16 16 true None in
  let st2 := drag_select (mkTerm (s2l "dir" ++ [nl] ++ prompt ++ s2l "ab") 18 16 true None) 0 18 in
  term_wf st /\ ins st = input_start st /\
  text (key_event [] None st KCtrlH) = s2l "dir" ++ [nl] ++ s2l "C:\webos95>" /\
  firstn 16 (text (key_event [] None st KCtrlH)) <> firstn 16 (text st) /\
  term_wf st2 /\ input_start st2 < ins st2 /\ sel st2 = Some (0, 18) /\
  text (key_event [] None st2 (KChar 120%N)) = [120%N].
Proof.
  unfold term_wf. vm_compute.
  repeat split; try lia; try reflexivity; discriminate.
Qed.

Lemma edits_keep_committed_text_witness :
  term_wf (run_edits [] None (mkTerm prompt 12 12 true None)
             [EChar 97%N; EClick 0; EBackSpace; EDelete]) /\
  input_start (run_edits [] None (mkTerm prompt 12 12 true None)
                 [EChar 97%N; EClick 0; EBackSpace; EDelete]) = 12 /\
  firstn 12 (text (run_edits [] None (mkTerm prompt 12 12 true None)
                     [EChar 97%N; EClick 0; EBackSpace; EDelete])) =
    firstn 12 prompt.
Proof.
  apply (edits_keep_committed_text [] None (mkTerm prompt 12 12 true None)).
  - unfold term_wf; simpl; repeat split; lia.
  - reflexivity.
Defined.

Lemma backspace_at_input_start_noop_witness :
  key_event [] None (mkTerm prompt 12 12 true None) KBackSpace =
  mkTerm prompt 12 12 true None.
Proof.
  apply (backspace_at_input_start_noop [] None (mkTerm prompt 12 12 true None)).
  reflexivity.
Defined.

Lemma on_return_dispatches_stripped_witness :
  on_return [] None
    (mkTerm (prompt ++ [160%N] ++ s2l "echo hi" ++ [12288%N; 32%N]) 22 12 true None) =
  write_prompt (handle_command [] None
                  (append_line (mkTerm (prompt ++ [160%N] ++ s2l "echo hi" ++ [12288%N; 32%N])
                                  22 12 true None) [])
                  (py_strip (s2l "echo hi"))).
Proof.
  apply (on_return_dispatches_stripped [] None
           (mkTerm (prompt ++ [160%N] ++ s2l "echo hi" ++ [12288%N; 32%N]) 22 12 true None)
           [160%N] (s2l "echo hi") [12288%N; 32%N]); reflexivity.
Defined.

(** C10: with the built-in commands (no [on_command], as the desktop
    builds its terminal), submitting [clear] deletes the whole text,
    committed lines included, and leaves only the new prompt, with the
    input starting right after it. *)
Theorem clear_wipes_transcript (now : str) (st : term)
  (Hcmd : py_strip (input_line st) = s2l "clear") :
  text (on_return now None st) = prompt /\
  input_start (on_return now None st) = length prompt.
Proof.
  unfold on_return. rewrite Hcmd.
  unfold handle_command. rewrite default_commands_clear.
  set (st1 := append_line st []).
  pose proof (text_delete_all st1) as Hd.
  set (st2 := tk_delete 0 (S (length (text st1))) st1) in *.
  unfold write_prompt, tk_insert_end, tk_insert_at. cbn [text input_start set_input_start].
  rewrite Hd. split; reflexivity.
Qed.

Lemma clear_wipes_transcript_witness :
  text (on_return [] None (mkTerm (s2l "hello" ++ [nl] ++ prompt ++ s2l " clear") 24 18 true None))
    = prompt /\
  input_start (on_return [] None (mkTerm (s2l "hello" ++ [nl] ++ prompt ++ s2l " clear") 24 18 true None))
    = length prompt.
Proof.
  apply (clear_wipes_transcript [] (mkTerm (s2l "hello" ++ [nl] ++ prompt ++ s2l " clear") 24 18 true None)).
  reflexivity.
Defined.

(** ** Further properties of the terminal *)

Lemma text_insert_end (st : term) (s : str) :
  text (tk_insert_end s st) = text st ++ s.
Proof.
  unfold tk_insert_end, tk_insert_at; simpl.
  rewrite firstn_all, skipn_all, app_nil_r. reflexivity.
Qed.

Lemma text_append_line (st : term) (s : str) :
  text (append_line st s) = text st ++ s ++ [nl].
Proof. unfold append_line. apply text_insert_end. Qed.

Lemma text_write_prompt (st : term) :
  text (write_prompt st) = text st ++ prompt.
Proof. unfold write_prompt. cbn [set_input_start text]. apply text_insert_end. Qed.

Lemma fold_append_lines (lines : list str) (st : term) :
  text (fold_left append_line lines st) =
  text st ++ concat (map (fun l => l ++ [nl]) lines).
Proof.
  revert st. induction lines as [|l lines IH]; intros st; simpl.
  - symmetry. apply app_nil_r.
  - rewrite IH, text_append_line. rewrite <- !app_assoc. reflexivity.
Qed.

(** Writing the pieces of [out.split("\n")] one line each gives back
    [out] followed by a newline. *)
Lemma split_nl_aux_concat (s cur : str) :
  concat (map (fun l => l ++ [nl]) (py_split_nl_aux s cur)) = rev cur ++ s ++ [nl].
Proof.
  revert cur. induction s as [|c s IH]; intros cur; simpl.
  - apply app_nil_r.
  - destruct (N.eqb_spec c nl).
    + subst c. simpl. rewrite IH. simpl. rewrite <- app_assoc. reflexivity.
    + rewrite IH. simpl. rewrite <- app_assoc. reflexivity.
Qed.

Lemma text_emit (st : term) (out : str) :
  text (match out with [] => st | _ => fold_left append_line (py_split_nl out) st end) =
  text st ++ match out with [] => [] | _ => out ++ [nl] end.
Proof.
  destruct out as [|c out]; [symmetry; apply app_nil_r|].
  rewrite fold_append_lines. unfold py_split_nl.
  rewrite split_nl_aux_concat. reflexivity.
Qed.

(** The text after [_on_return]: the text of the buffer left by the
    command, its output (when not empty) with a newline, the prompt. *)
Lemma text_on_return (now : str) (oc : option (str -> str)) (st : term) :
  text (on_return now oc st) =
  let r := match oc with
           | Some f => (append_line st [], f (py_strip (input_line st)))
           | None => default_commands now (append_line st []) (py_strip (input_line st))
           end in
  text (fst r) ++ match snd r with [] => [] | out => out ++ [nl] end ++ prompt.
Proof.
  unfold on_return, handle_command. cbv zeta.
  destruct (match oc with
            | Some f => (append_line st [], f (py_strip (input_line st)))
            | None => default_commands now (append_line st []) (py_strip (input_line st))
            end) as [st1 out].
  rewrite text_write_prompt, text_emit. cbn [fst snd].
  destruct out; rewrite <- app_assoc; reflexivity.
Qed.

Lemma py_split_ws_lead (w s : str) :
  forallb is_py_space w = true -> py_split_ws_aux (w ++ s) [] = py_split_ws_aux s [].
Proof.
  induction w as [|c w IH]; simpl; [reflexivity|].
  intro H. apply andb_prop in H as [Hc Hw]. rewrite Hc. auto.
Qed.

Lemma py_split_ws_trail (w : str) :
  forallb is_py_space w = true ->
  forall s cur, py_split_ws_aux (s ++ w) cur = py_split_ws_aux s cur.
Proof.
  intros Hw s. induction s as [|c s IH]; intros cur; simpl.
  - revert cur. induction w as [|c w IHw]; intros cur; simpl; [reflexivity|].
    simpl in Hw. apply andb_prop in Hw as [Hc Hw]. rewrite Hc.
    destruct cur; rewrite (IHw Hw []); reflexivity.
  - destruct (is_py_space c); [destruct cur|]; rewrite ?IH; reflexivity.
Qed.

Lemma py_lstrip_decomp (s : str) :
  exists w, forallb is_py_space w = true /\ s = w ++ py_lstrip s.
Proof.
  induction s as [|c s IH]; simpl; [exists []; auto|].
  destruct (is_py_space c) eqn:Hc.
  - destruct IH as [w [Hw Hs]]. exists (c :: w). simpl. rewrite Hc, Hw.
    split; [reflexivity|]. simpl. f_equal. exact Hs.
  - exists []. auto.
Qed.

(** [strip()] before [split()] changes nothing. *)
Lemma py_split_ws_strip (s : str) : py_split_ws (py_strip s) = py_split_ws s.
Proof.
  destruct (py_lstrip_decomp s) as [w1 [Hw1 Hs1]].
  destruct (py_lstrip_decomp (rev (py_lstrip s))) as [w2 [Hw2 Hs2]].
  assert (Ht : py_lstrip s = py_strip s ++ rev w2).
  { unfold py_strip, py_rstrip.
    set (L := py_lstrip (rev (py_lstrip s))) in *.
    rewrite <- (rev_involutive (py_lstrip s)), Hs2, rev_app_distr. reflexivity. }
  unfold py_split_ws. rewrite Hs1 at 2. rewrite py_split_ws_lead by exact Hw1.
  rewrite Ht, py_split_ws_trail; [reflexivity|].
  rewrite forallb_rev_iff. exact Hw2.
Qed.

(** X: with an [on_command] collaborator, [Return] writes a newline, the
    collaborator's answer for the stripped line followed by a newline
    (nothing when the answer is empty), then the prompt: the answer appears
    verbatim, and the text before is kept. *)
Theorem collaborator_output_appended (now : str) (f : str -> str) (st : term) :
  text (on_return now (Some f) st) =
  text st ++ [nl] ++
  match f (py_strip (input_line st)) with [] => [] | out => out ++ [nl] end ++
  prompt.
Proof.
  rewrite text_on_return. cbn zeta. cbn [fst snd].
  rewrite text_append_line. simpl. rewrite <- app_assoc. reflexivity.
Qed.

(** X: with the built-in commands, a line whose first word lowers
    ([str.lower()]) to [echo] writes the other words joined by single
    spaces (and nothing when there are none), whatever whitespace
    separated them. *)
Theorem echo_appends_words (now : str) (st : term) (e : str) (ws : list str)
  (Hwords : py_split_ws (input_line st) = e :: ws)
  (Hecho : py_lower e = s2l "echo") :
  text (on_return now None st) =
  text st ++ [nl] ++
  match py_join_space ws with [] => [] | out => out ++ [nl] end ++ prompt.
Proof.
  rewrite text_on_return. cbn zeta.
  unfold default_commands. rewrite py_split_ws_strip, Hwords. cbv zeta.
  rewrite Hecho. eval_str_eqb. cbn [orb fst snd].
  rewrite text_append_line. simpl. rewrite <- app_assoc. reflexivity.
Qed.

Lemma echo_appends_words_witness :
  text (on_return [] None (mkTerm (prompt ++ s2l "  ECHO   hi  there ") 31 12 true None)) =
  text (mkTerm (prompt ++ s2l "  ECHO   hi  there ") 31 12 true None) ++ [nl] ++
  match py_join_space [s2l "hi"; s2l "there"] with [] => [] | out => out ++ [nl] end ++
  prompt.
Proof.
  apply (echo_appends_words [] _ (s2l "ECHO")); reflexivity.
Defined.

(** X: with the built-in commands, an empty or all-blank line writes no
    output: only the newline and the next prompt. *)
Theorem blank_line_writes_only_prompt (now : str) (st : term)
  (Hblank : py_split_ws (input_line st) = []) :
  text (on_return now None st) = text st ++ [nl] ++ prompt.
Proof.
  rewrite text_on_return. cbn zeta.
  unfold default_commands. rewrite py_split_ws_strip, Hblank.
  cbn [fst snd]. rewrite text_append_line. simpl. rewrite <- app_assoc. reflexivity.
Qed.

Lemma blank_line_writes_only_prompt_witness :
  text (on_return [] None (mkTerm (prompt ++ [160%N; 32%N; 12288%N]) 15 12 true None)) =
  text (mkTerm (prompt ++ [160%N; 32%N; 12288%N]) 15 12 true None) ++ [nl] ++ prompt.
Proof. apply blank_line_writes_only_prompt. reflexivity. Defined.

(** X: with the built-in commands, a line whose first word, lowered by
    [str.lower()], is none of [help], [?], [echo], [time], [clear],
    [about], [vibes] writes [Unknown command: ] and the lowered word. *)
Theorem unknown_command_reported (now : str) (st : term) (e : str) (args : list str)
  (Hwords : py_split_ws (input_line st) = e :: args)
  (Hunknown : forallb (fun k => negb (str_eqb (py_lower e) (s2l k)))
                ["help"; "?"; "echo"; "time"; "clear"; "about"; "vibes"]%string = true) :
  text (on_return now None st) =
  text st ++ [nl] ++ s2l "Unknown command: " ++ py_lower e ++ [nl] ++ prompt.
Proof.
  rewrite text_on_return. cbn zeta.
  unfold default_commands. rewrite py_split_ws_strip, Hwords. cbv zeta.
  cbn [forallb] in Hunknown.
  repeat match type of Hunknown with
  | negb ?b && _ = true =>
      let E := fresh "E" in
      destruct b eqn:E; [discriminate|]; cbn [negb andb] in Hunknown
  end.
  repeat match goal with
  | E : str_eqb _ _ = false |- _ => rewrite E; clear E
  end.
  cbn [orb fst snd]. rewrite text_append_line.
  simpl. rewrite <- !app_assoc. reflexivity.
Qed.

(** [ÉCHO] lowers to [écho], which is not [echo]. *)
Lemma unknown_command_reported_witness :
  text (on_return [] None (mkTerm (prompt ++ [201%N] ++ s2l "CHO hi") 19 12 true None)) =
  text (mkTerm (prompt ++ [201%N] ++ s2l "CHO hi") 19 12 true None) ++ [nl] ++
  s2l "Unknown command: " ++ py_lower ([201%N] ++ s2l "CHO") ++ [nl] ++ prompt.
Proof.
  apply (unknown_command_reported [] _ ([201%N] ++ s2l "CHO") [s2l "hi"]); reflexivity.
Defined.

Lemma default_commands_keep (now : str) (st : term) (cmd : str)
  (Hnc : str_eqb (py_lower (hd [] (py_split_ws cmd))) (s2l "clear") = false) :
  fst (default_commands now st cmd) = st.
Proof.
  unfold default_commands.
  destruct (py_split_ws cmd) as [|e args]; [reflexivity|].
  cbn [hd] in Hnc. cbv zeta.
  destruct (str_eqb (py_lower e) (s2l "help") || str_eqb (py_lower e) (s2l "?"));
    [reflexivity|].
  destruct (str_eqb (py_lower e) (s2l "echo")); [reflexivity|].
  destruct (str_eqb (py_lower e) (s2l "time")); [reflexivity|].
  rewrite Hnc.
  destruct (str_eqb (py_lower e) (s2l "about")); [reflexivity|].
  destruct (str_eqb (py_lower e) (s2l "vibes")); reflexivity.
Qed.

(** X: with the built-in commands, every submitted line whose first word
    does not lower to [clear] keeps the whole text and only appends to
    it; [clear] is the only command that removes text. *)
Theorem non_clear_keeps_transcript (now : str) (st : term)
  (Hnc : str_eqb (py_lower (hd [] (py_split_ws (input_line st)))) (s2l "clear") = false) :
  exists rest, text (on_return now None st) = text st ++ rest.
Proof.
  rewrite text_on_return. cbn zeta.
  rewrite (surjective_pairing (default_commands now (append_line st []) (py_strip (input_line st)))).
  cbn [fst snd].
  rewrite default_commands_keep by (rewrite py_split_ws_strip; exact Hnc).
  rewrite text_append_line. eexists. rewrite <- app_assoc. reflexivity.
Qed.

Lemma non_clear_keeps_transcript_witness :
  exists rest, text (on_return [] None (mkTerm (prompt ++ s2l "help") 16 12 true None)) =
               text (mkTerm (prompt ++ s2l "help") 16 12 true None) ++ rest.
Proof. apply non_clear_keeps_transcript. reflexivity. Defined.

(** X: with no selection, a character typed while the cursor lies before
    [_input_start_idx] (after a click in the transcript) goes at the end
    of the text, not where the cursor was, and the cursor follows it. *)
Theorem typing_before_prompt_appends (now : str) (oc : option (str -> str)) (st : term)
  (c : char) (Hwf : term_wf st) (Hsel : sel st = None)
  (Hbefore : ins st < input_start st) :
  text (key_event now oc st (KChar c)) = text st ++ [c] /\
  ins (key_event now oc st (KChar c)) = S (length (text st)).
Proof.
  destruct st as [t i is l s]; destruct Hwf as (H1 & H2 & H3).
  cbn [text ins input_start lock_input_to_end sel] in H1, H2, H3, Hsel, Hbefore |- *.
  subst l s.
  unfold key_event, on_key. cbn [lock_input_to_end ins input_start].
  rewrite (proj2 (Nat.ltb_lt i is) Hbefore).
  cbn. rewrite Nat.leb_refl, firstn_all, skipn_all, Nat.add_1_r. split; reflexivity.
Qed.

Lemma typing_before_prompt_appends_witness :
  text (key_event [] None (mkTerm (prompt ++ s2l "ab") 3 12 true None) (KChar 120%N)) =
    text (mkTerm (prompt ++ s2l "ab") 3 12 true None) ++ [120%N] /\
  ins (key_event [] None (mkTerm (prompt ++ s2l "ab") 3 12 true None) (KChar 120%N)) =
    S (length (text (mkTerm (prompt ++ s2l "ab") 3 12 true None))).
Proof.
  apply typing_before_prompt_appends.
  - unfold term_wf. vm_compute. repeat split; lia.
  - reflexivity.
  - vm_compute. lia.
Defined.

(** X: with no selection, [BackSpace] while the cursor lies before
    [_input_start_idx] moves it to the end and deletes the last character
    of the input; with an empty input it does nothing more than move the
    cursor. *)
Theorem backspace_before_prompt (now : str) (oc : option (str -> str)) (st : term)
  (Hwf : term_wf st) (Hsel : sel st = None) (Hbefore : ins st < input_start st) :
  text (key_event now oc st KBackSpace) =
    (if input_start st <? length (text st) then removelast (text st) else text st) /\
  ins (key_event now oc st KBackSpace) =
    (if input_start st <? length (text st) then length (text st) - 1 else length (text st)).
Proof.
  destruct st as [t i is l s]; destruct Hwf as (H1 & H2 & H3).
  cbn [text ins input_start lock_input_to_end sel] in H1, H2, H3, Hsel, Hbefore |- *.
  subst l s.
  unfold key_event, on_key. cbn [lock_input_to_end ins input_start].
  rewrite (proj2 (Nat.ltb_lt i is) Hbefore).
  unfold set_ins, text_class_key, cursor_in_sel.
  cbn [andb sel ins input_start text lock_input_to_end].
  destruct (Nat.ltb_spec is (length t)).
  - rewrite (proj2 (Nat.leb_gt (length t) is) H).
    destruct (Nat.eqb_spec (length t) 0); [lia|].
    unfold tk_delete, idx_delete. cbn [text ins].
    rewrite Nat.min_l by lia.
    rewrite (proj2 (Nat.leb_gt (length t) (length t - 1)) ltac:(lia)).
    rewrite (proj2 (Nat.ltb_ge (length t) (length t)) ltac:(lia)).
    rewrite skipn_all, app_nil_r, removelast_firstn_len.
    split; [f_equal; lia | lia].
  - rewrite (proj2 (Nat.leb_le (length t) is) ltac:(lia)). split; reflexivity.
Qed.

Lemma backspace_before_prompt_witness :
  text (key_event [] None (mkTerm (prompt ++ s2l "ab") 3 12 true None) KBackSpace) =
    (if 12 <? length (prompt ++ s2l "ab") then removelast (prompt ++ s2l "ab")
     else prompt ++ s2l "ab") /\
  ins (key_event [] None (mkTerm (prompt ++ s2l "ab") 3 12 true None) KBackSpace) =
    (if 12 <? length (prompt ++ s2l "ab") then length (prompt ++ s2l "ab") - 1
     else length (prompt ++ s2l "ab")).
Proof.
  apply (backspace_before_prompt [] None (mkTerm (prompt ++ s2l "ab") 3 12 true None)).
  - unfold term_wf. vm_compute. repeat split; lia.
  - reflexivity.
  - vm_compute. lia.
Defined.

(** X: with no selection, [Delete] with the cursor at the end of the text
    changes nothing. *)
Theorem delete_at_end_noop (now : str) (oc : option (str -> str)) (st : term)
  (Hwf : term_wf st) (Hsel : sel st = None) (Hend : ins st = length (text st)) :
  key_event now oc st KDelete = st.
Proof.
  destruct st as [t i is l s]; destruct Hwf as (H1 & H2 & H3).
  cbn [text ins input_start lock_input_to_end sel] in H1, H2, H3, Hsel, Hend; subst l i s.
  unfold key_event, on_key. cbn [lock_input_to_end ins input_start text].
  rewrite (proj2 (Nat.ltb_ge (length t) is) H1).
  cbn [andb]. unfold text_class_key, cursor_in_sel. cbn [ins text sel].
  rewrite Nat.ltb_irrefl. reflexivity.
Qed.

Lemma delete_at_end_noop_witness :
  key_event [] None (mkTerm (prompt ++ s2l "ab") 14 12 true None) KDelete =
  mkTerm (prompt ++ s2l "ab") 14 12 true None.
Proof.
  apply delete_at_end_noop.
  - unfold term_wf. vm_compute. repeat split; lia.
  - reflexivity.
  - reflexivity.
Defined.

End TerminalFacts.

Module DesktopFacts.
Import Desktop.
Open Scope Z_scope.

(** [Win95Window.__init__] stops at line 99: [tk.Sizegrip] raises
    [AttributeError] before the first [bind], so no window has a binding. *)
Lemma win95_init_stops_at_sizegrip : run_init win95_init_body [] = ([], true).
Proof. reflexivity. Qed.

Lemma win95_bindings_empty : win95_bindings = [].
Proof. reflexivity. Qed.

Lemma pointer_noop (part_off : part -> Z * Z) (d : desk) (w : nat) (p : part)
  (q : seq) (px py : Z) :
  pointer part_off d w p q px py = d.
Proof.
  unfold pointer. rewrite win95_bindings_empty.
  destruct (get_win (wins d) w); reflexivity.
Qed.

(** The drag handlers themselves would track the pointer: once
    [on_drag_start] has recorded the press, each [on_drag_move] places the
    window at its original position plus the pointer's displacement since
    the press, whatever the motions before. *)
Lemma drag_handlers_follow_pointer (win : window) (ox oy px py mx my : Z)
  (ms : list (Z * Z)) :
  let step := fun (v : window) (m : Z * Z) =>
    fst (run_handler OnDragMove v (fst m - win_x v - ox) (snd m - win_y v - oy)) in
  let w1 := fst (run_handler OnDragStart win (px - win_x win - ox) (py - win_y win - oy)) in
  let w2 := fold_left step (ms ++ [(mx, my)]) w1 in
  win_x w2 = win_x win + (mx - px) /\ win_y w2 = win_y win + (my - py).
Proof.
  intros step w1 w2.
  set (I := fun v : window => drag_active v = true /\
              drag_x v = px - win_x win - ox /\ drag_y v = py - win_y win - oy).
  assert (Hstep : forall v m, I v ->
    I (step v m) /\ win_x (step v m) = win_x win + (fst m - px) /\
    win_y (step v m) = win_y win + (snd m - py)).
  { intros v [m1 m2] (Ha & Hx & Hy). unfold step, I; simpl.
    rewrite Ha; simpl. rewrite Hx, Hy. repeat split; try lia; assumption. }
  assert (Hfold : forall l v, I v -> I (fold_left step l v)).
  { induction l as [|m l IH]; intros v Hv; simpl; [exact Hv|].
    apply IH. apply Hstep. exact Hv. }
  assert (H1 : I w1) by (unfold I, w1; simpl; repeat split; lia).
  unfold w2. rewrite fold_left_app. simpl.
  destruct (Hstep (fold_left step ms w1) (mx, my) (Hfold ms w1 H1)) as (_ & Hx & Hy).
  split; assumption.
Qed.

(** C3, failing input: [open_terminal] (window 0, placed at (120, 120))
    then [About] (window 1, at (180, 160)); the title bar of window 0 is
    pressed at (130, 125). Window 0 stays below window 1: no binding
    exists to lift it. *)
Theorem press_does_not_raise :
  let a := run_app std_off init_app [AOpenTerminal; AAbout] in
  let a' := app_step std_off a (APointer 0 PTitlebar ButtonPress1 130 125) in
  stack (adesk a) = [0; 1]%nat /\ stack (adesk a') = [0; 1]%nat /\
  last (stack (adesk a')) 0%nat <> 0%nat.
Proof. vm_compute. split; [reflexivity | split; [reflexivity | discriminate]]. Qed.

(** C4, failing input: the window opened at (80, 80); its title bar is
    pressed at (100, 90), dragged to (110, 95) and released there. The
    window stays at (80, 80); a move by the pointer's displacement would
    put it at (90, 85). *)
Theorem drag_gesture_does_not_move :
  let d := gesture std_off (open_window init_desk 80 80) 0 PTitlebar
             (100, 90) [(110, 95)] (110, 95) in
  get_win (wins d) 0 = Some (mkWin 80 80 0 0 false) /\
  get_win (wins d) 0 <> Some (mkWin 90 85 0 0 false).
Proof. simpl. split; [reflexivity | congruence]. Qed.

(** C8 (as the code does it): [destroy_window] takes the window out of
    the stacking order (the others keep their order) and out of the
    desktop; no other window gets the focus: a keyboard focus inside the
    closed window goes to the desktop toplevel, any other focus stays. *)
Theorem close_removes_window (d : desk) (w : nat) :
  stack (close_window d w) = remove_id (stack d) w /\
  ~ In w (stack (close_window d w)) /\
  get_win (wins (close_window d w)) w = None /\
  (kfocus d = Some w -> kfocus (close_window d w) = None) /\
  (kfocus d <> Some w -> kfocus (close_window d w) = kfocus d).
Proof.
  split; [reflexivity|].
  split.
  { simpl. unfold remove_id. rewrite filter_In. intros [_ H].
    rewrite Nat.eqb_refl in H. discriminate. }
  split.
  { simpl. induction (wins d) as [|[v win] ws IH]; simpl; [reflexivity|].
    destruct (Nat.eqb_spec v w); simpl.
    - exact IH.
    - apply Nat.eqb_neq in n. rewrite n. exact IH. }
  split.
  - intros H. simpl. rewrite H, Nat.eqb_refl. reflexivity.
  - intros H. simpl. destruct (kfocus d) as [v|]; [|reflexivity].
    destruct (Nat.eqb_spec v w); [subst; congruence | reflexivity].
Qed.

(** C8, counterexample: the terminal (window 0) and the about box
    (window 1) are open; Tab traversal puts the keyboard focus on window
    0's close button, which is then activated. Window 1 is the only
    window left, but the focus goes to no window rather than to it. *)
Lemma close_does_not_transfer_focus :
  let a := run_app std_off init_app [AOpenTerminal; AAbout; AFocus 0] in
  let a' := app_step std_off a (AClose 0) in
  kfocus (adesk a) = Some 0%nat /\ stack (adesk a') = [1%nat] /\
  kfocus (adesk a') <> Some 1%nat.
Proof. vm_compute. split; [reflexivity | split; [reflexivity | discriminate]]. Qed.

(** ** Invariants of the desktop *)

Lemma get_win_In (ws : list (nat * window)) (w : nat) (win : window) :
  get_win ws w = Some win -> In (w, win) ws.
Proof.
  induction ws as [|[v win'] ws IH]; simpl; [discriminate|].
  destruct (Nat.eqb_spec v w) as [->|_]; [intros H; inversion H; auto|].
  intros H. right. exact (IH H).
Qed.

Lemma get_win_fst (ws : list (nat * window)) (w : nat) (win : window) :
  get_win ws w = Some win -> In w (map fst ws).
Proof.
  intro H. exact (in_map fst _ _ (get_win_In ws w win H)).
Qed.

Lemma map_fst_close (ws : list (nat * window)) (w : nat) :
  map fst (filter (fun '(v, _) => negb (Nat.eqb v w)) ws) = remove_id (map fst ws) w.
Proof.
  induction ws as [|[v win] ws IH]; simpl; [reflexivity|].
  destruct (Nat.eqb v w); simpl; rewrite IH; reflexivity.
Qed.

Lemma in_remove_id (l : list nat) (w v : nat) :
  In v (remove_id l w) <-> In v l /\ v <> w.
Proof.
  unfold remove_id. rewrite filter_In.
  destruct (Nat.eqb_spec v w); simpl; intuition congruence.
Qed.

Lemma in_lift (l : list nat) (w v : nat) :
  In w l -> (In v (lift l w) <-> In v l).
Proof.
  intros Hw. unfold lift. rewrite in_app_iff, in_remove_id. simpl.
  destruct (Nat.eqb_spec v w) as [->|Hne]; split.
  - intros _. exact Hw.
  - intros _. right. left. reflexivity.
  - intros [[H _]|[H|[]]]; [exact H | congruence].
  - intros H. left. split; assumption.
Qed.

Lemma nodup_lift (l : list nat) (w : nat) : NoDup l -> NoDup (lift l w).
Proof.
  intros H. unfold lift. apply NoDup_app.
  - apply NoDup_filter, H.
  - constructor; [simpl; tauto | constructor].
  - intros a Ha. apply in_remove_id in Ha. simpl. intuition.
Qed.

Lemma desk_inv_init : desk_inv init_desk.
Proof.
  unfold desk_inv; simpl. repeat split; try constructor; try tauto; discriminate.
Qed.

Lemma desk_inv_restack (d : desk) (s : list nat) (ws : list (nat * window)) (kf : option nat) :
  desk_inv d -> NoDup s -> (forall v, In v s <-> In v (stack d)) ->
  map fst ws = map fst (wins d) -> (forall v, kf = Some v -> In v (stack d)) ->
  desk_inv (mkDesk s ws kf (next_id d)).
Proof.
  intros (Hnd & Hndw & Hsw & Hlt & Hkf) Hs Hiff Hws Hkf'.
  unfold desk_inv; cbn [stack wins kfocus next_id]. rewrite Hws.
  repeat split.
  - exact Hs.
  - exact Hndw.
  - intros Hv. apply Hsw, Hiff, Hv.
  - intros Hv. apply Hiff, Hsw, Hv.
  - intros v Hv. apply Hlt, Hiff, Hv.
  - intros v Hv. apply Hiff, Hkf', Hv.
Qed.

Lemma desk_inv_open (d : desk) (x y : Z) : desk_inv d -> desk_inv (open_window d x y).
Proof.
  intros (Hnd & Hndw & Hsw & Hlt & Hkf).
  unfold open_window, desk_inv; cbn [stack wins kfocus next_id].
  rewrite map_app. simpl.
  repeat split.
  - apply NoDup_app; [exact Hnd | repeat constructor; simpl; tauto|].
    intros a Ha [Heq|[]]. subst a. specialize (Hlt _ Ha). lia.
  - apply NoDup_app; [exact Hndw | repeat constructor; simpl; tauto|].
    intros a Ha [Heq|[]]. subst a. apply Hsw in Ha. specialize (Hlt _ Ha). lia.
  - intros Hv. apply in_app_iff in Hv. apply in_app_iff.
    destruct Hv as [Hv|Hv]; [left; apply Hsw, Hv | right; exact Hv].
  - intros Hv. apply in_app_iff in Hv. apply in_app_iff.
    destruct Hv as [Hv|Hv]; [left; apply Hsw, Hv | right; exact Hv].
  - intros v Hv. apply in_app_iff in Hv.
    destruct Hv as [Hv|[<-|[]]]; [specialize (Hlt _ Hv); lia | lia].
  - intros v Hv. apply in_app_iff. left. exact (Hkf _ Hv).
Qed.

Lemma desk_inv_close (d : desk) (w : nat) : desk_inv d -> desk_inv (close_window d w).
Proof.
  intros (Hnd & Hndw & Hsw & Hlt & Hkf).
  unfold close_window, desk_inv; cbn [stack wins kfocus next_id].
  rewrite map_fst_close.
  repeat split.
  - apply NoDup_filter, Hnd.
  - apply NoDup_filter, Hndw.
  - intros Hv. apply in_remove_id in Hv. apply in_remove_id.
    split; [apply Hsw|]; apply Hv.
  - intros Hv. apply in_remove_id in Hv. apply in_remove_id.
    split; [apply Hsw|]; apply Hv.
  - intros v Hv. apply in_remove_id in Hv. apply Hlt, Hv.
  - intros v. destruct (kfocus d) as [u|]; [|discriminate].
    destruct (Nat.eqb_spec u w); [discriminate|].
    intros Hv; injection Hv as <-. apply in_remove_id. split; [apply Hkf|]; auto.
Qed.

Lemma desk_inv_raise (d : desk) (w : nat) :
  desk_inv d -> In w (stack d) -> desk_inv (raise_window d w).
Proof.
  intros Hi Hw. unfold raise_window.
  pose proof Hi as (Hnd & Hndw & Hsw & Hlt & Hkf).
  apply desk_inv_restack; auto.
  - apply nodup_lift, Hnd.
  - intros v. apply in_lift, Hw.
Qed.

Lemma desk_inv_focus (d : desk) (w : nat) : desk_inv d -> desk_inv (focus_window d w).
Proof.
  intros Hi. unfold focus_window.
  destruct (get_win (wins d) w) as [win|] eqn:Hg; [|exact Hi].
  pose proof Hi as (Hnd & Hndw & Hsw & Hlt & Hkf).
  apply desk_inv_restack; auto; try reflexivity.
  intros v Hv. injection Hv as <-. apply Hsw. eapply get_win_fst. exact Hg.
Qed.

Lemma open_terminal_no_terminal (a : app) :
  terminal a = None -> open_terminal a = mkApp (open_window (adesk a) 120 120) None.
Proof.
  intros Ht. unfold open_terminal. rewrite Ht. reflexivity.
Qed.

(** In every state of the program the desktop invariant holds and
    [self.terminal] is still [None]. *)
Lemma app_reachable_inv (part_off : part -> Z * Z) (ops : list app_op) :
  desk_inv (adesk (run_app part_off init_app ops)) /\
  terminal (run_app part_off init_app ops) = None.
Proof.
  unfold run_app.
  assert (H0 : desk_inv (adesk init_app) /\ terminal init_app = None)
    by (split; [exact desk_inv_init | reflexivity]).
  revert H0. generalize init_app.
  induction ops as [|o ops IH]; intros a (Hi & Ht); simpl; [auto|].
  apply IH. destruct o as [ | | w p q px py | w | w ]; simpl.
  - rewrite (open_terminal_no_terminal a Ht). split; [apply desk_inv_open, Hi | reflexivity].
  - split; [apply desk_inv_open, Hi | exact Ht].
  - rewrite pointer_noop. split; assumption.
  - split; [apply desk_inv_focus, Hi | exact Ht].
  - split; [apply desk_inv_close, Hi | exact Ht].
Qed.

(** X: in every state the program can reach (terminals and about boxes
    opened, windows pressed and dragged, focused and closed in any
    order), the stacking order lists each window once and exactly the
    live windows, and the keyboard focus, when on a window, is on a live
    one. *)
Theorem stacking_order_consistent (part_off : part -> Z * Z) (ops : list app_op) :
  let d := adesk (run_app part_off init_app ops) in
  NoDup (stack d) /\
  (forall v, In v (stack d) <-> get_win (wins d) v <> None) /\
  (forall v, kfocus d = Some v -> get_win (wins d) v <> None).
Proof.
  intros d.
  destruct (app_reachable_inv part_off ops) as ((Hnd & Hndw & Hsw & Hlt & Hkf) & _).
  fold d in Hnd, Hndw, Hsw, Hlt, Hkf.
  assert (Hget : forall v, In v (map fst (wins d)) <-> get_win (wins d) v <> None).
  { intros v. clear. induction (wins d) as [|[u win] ws IH]; simpl; [tauto|].
    destruct (Nat.eqb_spec u v) as [->|Hne]; [split; [discriminate | auto]|].
    rewrite <- IH. intuition. }
  split; [exact Hnd|]. split.
  - intros v. rewrite Hsw. apply Hget.
  - intros v Hv. apply Hget, Hsw, Hkf, Hv.
Qed.


(** X: [self.terminal] is never set: in every state the program can
    reach it is [None], so each [open_terminal] (start menu, desktop icon
    or the call scheduled by [__init__]) places one more window at
    [(120, 120)], on top of the others, instead of lifting the first. *)
Theorem open_terminal_adds_window (part_off : part -> Z * Z) (ops : list app_op) :
  let a := run_app part_off init_app ops in
  terminal a = None /\
  open_terminal a = mkApp (open_window (adesk a) 120 120) None.
Proof.
  intros a. destruct (app_reachable_inv part_off ops) as (_ & Ht). fold a in Ht.
  split; [exact Ht|]. apply open_terminal_no_terminal, Ht.
Qed.

End DesktopFacts.

Module MetricsFacts.
Import Metrics.
Local Open Scope Q_scope.

Section Facts.

Variable R : Type.
Variables r_zero r_two r_pi r_thousand r_quarter : R.
Variables r_add r_sub r_mul r_div : R -> R -> R.
Variable r_geb : R -> R -> bool.
Variable r_of_Z : Z -> R.
Variable fps_label : R -> string.

(** C1: three samples published before a UI tick: the tick leaves
    [fps_value] (and the label) at the third one and empties the queue; a
    second tick with nothing published gets [queue.Empty] at once and
    changes nothing. *)
Theorem latest_sample_wins (v0 : R) (t0 : string) (s1 s2 s3 : R) :
  let u1 := publish R (publish R (publish R (mkUi R [] v0 t0) (fps_event R s1))
                                 (fps_event R s2)) (fps_event R s3) in
  let u2 := ui_tick R r_zero fps_label u1 in
  u2 = mkUi R [] s3 (fps_label s3) /\
  get_nowait R (queue R u2) = None /\
  ui_tick R r_zero fps_label u2 = u2.
Proof. simpl. repeat split; reflexivity. Qed.

(** C7 (as the code does it): on a tick at which at least 0.25 s of
    wall-clock time have passed since the last report, the loop puts one
    [fps] event whose value is the number of ticks since the last report
    divided by that wall-clock time, resets [frames] to 0 and sets
    [last_report] to now (so the next window's elapsed time starts at 0);
    [acc_time] only grows by [dt] and is not reset. *)
Theorem report_window (st : loop_state R) (q : list (evt R)) (dt_ms : Z) (now : R)
  (Hdue : r_geb (r_sub now (last_report R st)) r_quarter = true) :
  let res := loop_tick R r_two r_pi r_thousand r_quarter r_add r_sub r_mul r_div
               r_geb r_of_Z st q dt_ms now in
  snd res = q ++ [fps_event R (r_div (r_of_Z (frames R st + 1)%Z)
                                     (r_sub now (last_report R st)))] /\
  frames R (fst res) = 0%Z /\
  last_report R (fst res) = now /\
  acc_time R (fst res) = r_add (acc_time R st) (r_div (r_of_Z dt_ms) r_thousand).
Proof.
  simpl. unfold loop_tick. rewrite Hdue. simpl. repeat split; reflexivity.
Qed.

Lemma drain_app (l1 l2 : list (evt R)) (v : R) :
  drain R r_zero (l1 ++ l2) v = drain R r_zero l2 (drain R r_zero l1 v).
Proof.
  revert v. induction l1 as [|e l1 IH]; intros v; simpl; [reflexivity|]. apply IH.
Qed.

Lemma drain_no_fps (l : list (evt R)) (v : R) :
  forallb (fun e => negb (String.eqb (etype R e) "fps")) l = true ->
  drain R r_zero l v = v.
Proof.
  revert v. induction l as [|e l IH]; intros v H; simpl; [reflexivity|].
  simpl in H. apply andb_prop in H as [H1 H2].
  destruct (String.eqb (etype R e) "fps"); [discriminate|]. apply IH, H2.
Qed.

(** X: a UI tick shows the value of the last [fps] event in the queue
    ([0.0] when it has no [value]), whatever came before it, and skips the
    other events after it; the queue ends empty. *)
Theorem ui_tick_shows_last_fps (u : ui_state R) (pre post : list (evt R)) (e : evt R)
  (Hq : queue R u = pre ++ e :: post)
  (He : etype R e = "fps"%string)
  (Hpost : forallb (fun e => negb (String.eqb (etype R e) "fps")) post = true) :
  let x := match evalue R e with Some x => x | None => r_zero end in
  ui_tick R r_zero fps_label u = mkUi R [] x (fps_label x).
Proof.
  intros x. unfold ui_tick. rewrite Hq, drain_app. simpl. rewrite He. simpl.
  rewrite drain_no_fps by exact Hpost. reflexivity.
Qed.

(** X: a UI tick with no [fps] event in the queue (only [vibe] or other
    events, or none) keeps [fps_value], redraws the label from it and
    empties the queue. *)
Theorem ui_tick_keeps_value (u : ui_state R)
  (Hnone : forallb (fun e => negb (String.eqb (etype R e) "fps")) (queue R u) = true) :
  ui_tick R r_zero fps_label u = mkUi R [] (fps_value R u) (fps_label (fps_value R u)).
Proof.
  unfold ui_tick. rewrite drain_no_fps by exact Hnone. reflexivity.
Qed.

Lemma run_loop_app (st : loop_state R) (q : list (evt R)) (t1 t2 : list (Z * R)) :
  run_loop R r_two r_pi r_thousand r_quarter r_add r_sub r_mul r_div r_geb r_of_Z
    st q (t1 ++ t2) =
  let r := run_loop R r_two r_pi r_thousand r_quarter r_add r_sub r_mul r_div r_geb r_of_Z
             st q t1 in
  run_loop R r_two r_pi r_thousand r_quarter r_add r_sub r_mul r_div r_geb r_of_Z
    (fst r) (snd r) t2.
Proof.
  unfold run_loop. rewrite fold_left_app. cbv zeta.
  destruct (fold_left _ t1 (st, q)). reflexivity.
Qed.

(** X: over a report window, ticks at which less than 0.25 s have passed
    since [last_report] publish nothing and only count frames; the first
    tick at which 0.25 s have passed publishes the number of all ticks of
    the window (those before and this one, added to the frames already
    counted) divided by the time since [last_report], then starts a new
    window at that tick. *)
Theorem report_counts_window (st : loop_state R) (q : list (evt R))
  (ticks : list (Z * R)) (dt_ms : Z) (now : R)
  (Hearly : Forall (fun t => r_geb (r_sub (snd t) (last_report R st)) r_quarter = false) ticks)
  (Hdue : r_geb (r_sub now (last_report R st)) r_quarter = true) :
  let run := run_loop R r_two r_pi r_thousand r_quarter r_add r_sub r_mul r_div r_geb r_of_Z in
  snd (run st q ticks) = q /\
  frames R (fst (run st q ticks)) = (frames R st + Z.of_nat (length ticks))%Z /\
  last_report R (fst (run st q ticks)) = last_report R st /\
  snd (run st q (ticks ++ [(dt_ms, now)])) =
    q ++ [fps_event R (r_div (r_of_Z (frames R st + Z.of_nat (length ticks) + 1)%Z)
                             (r_sub now (last_report R st)))] /\
  frames R (fst (run st q (ticks ++ [(dt_ms, now)]))) = 0%Z /\
  last_report R (fst (run st q (ticks ++ [(dt_ms, now)]))) = now.
Proof.
  intros run.
  assert (Hpre : snd (run st q ticks) = q /\
                 frames R (fst (run st q ticks)) = (frames R st + Z.of_nat (length ticks))%Z /\
                 last_report R (fst (run st q ticks)) = last_report R st).
  { unfold run, run_loop. clear Hdue. revert st Hearly.
    induction ticks as [|[d t] ticks IH]; intros st Hearly; simpl.
    - repeat split; lia.
    - inversion Hearly as [|? ? Ht Hrest]; subst. cbn [snd] in Ht.
      cbn [fold_left length].
      set (r := loop_tick R r_two r_pi r_thousand r_quarter r_add r_sub r_mul r_div
                  r_geb r_of_Z st q d t).
      assert (Er : r = (fst r, q) /\ frames R (fst r) = (frames R st + 1)%Z /\
                   last_report R (fst r) = last_report R st)
        by (unfold r, loop_tick; rewrite Ht; repeat split; reflexivity).
      destruct Er as (Er & Ef & El). rewrite Er.
      destruct (IH (fst r) ltac:(rewrite El; exact Hrest)) as (H1 & H2 & H3).
      repeat split; [exact H1 | rewrite H2, Ef, Zpos_P_of_succ_nat; lia | rewrite H3; exact El]. }
  destruct Hpre as (H1 & H2 & H3).
  split; [exact H1|]. split; [exact H2|]. split; [exact H3|].
  unfold run in *. rewrite run_loop_app. cbv zeta.
  destruct (run_loop _ _ _ _ _ _ _ _ _ _ _ st q ticks) as [st1 q1].
  cbn [fst snd] in *. subst q1.
  unfold run_loop. cbn [fold_left]. unfold loop_tick. rewrite H3, Hdue.
  cbn [fst snd frames last_report]. rewrite H2. repeat split.
Qed.

(** X: [acc_time] is the sum of every tick's [dt] since the loop
    started: report ticks do not reset it. *)
Theorem acc_time_sums_ticks (st : loop_state R) (q : list (evt R)) (ticks : list (Z * R)) :
  acc_time R (fst (run_loop R r_two r_pi r_thousand r_quarter r_add r_sub r_mul r_div
                    r_geb r_of_Z st q ticks)) =
  fold_left (fun a t => r_add a (r_div (r_of_Z (fst t)) r_thousand)) ticks (acc_time R st).
Proof.
  unfold run_loop. revert st q.
  induction ticks as [|[d t] ticks IH]; intros st q; [reflexivity|].
  cbn [fold_left fst].
  destruct (loop_tick R r_two r_pi r_thousand r_quarter r_add r_sub r_mul r_div
              r_geb r_of_Z st q d t) as [st1 q1] eqn:E.
  rewrite IH.
  assert (Ha : acc_time R st1 = r_add (acc_time R st) (r_div (r_of_Z d) r_thousand)).
  { unfold loop_tick in E. destruct (r_geb _ _); injection E as <- _; reflexivity. }
  rewrite Ha. reflexivity.
Qed.

End Facts.

Lemma report_window_witness :
  q_geb (Qminus (1 # 4) 0) (1 # 4) = true /\
  (let res := q_tick (mkLoop Q (24 # 100) 14 0 0) [] 10 (1 # 4) in
   snd res = [] ++ [fps_event Q (Qdiv (inject_Z (14 + 1)%Z) (Qminus (1 # 4) 0))] /\
   frames Q (fst res) = 0%Z /\
   last_report Q (fst res) = (1 # 4) /\
   acc_time Q (fst res) = Qplus (24 # 100) (Qdiv (inject_Z 10) 1000)).
Proof.
  split; [reflexivity|].
  exact (report_window Q 2 (314 # 100) 1000 (1 # 4) Qplus Qminus Qmult Qdiv q_geb inject_Z
           (mkLoop Q (24 # 100) 14 0 0) [] 10 (1 # 4) eq_refl).
Defined.


Lemma ui_tick_shows_last_fps_witness :
  let u := mkUi Q [fps_event Q 30; mkEvt Q "vibe" None; fps_event Q 60; mkEvt Q "vibe" None]
                0 "FPS: 0" in
  let x := match evalue Q (fps_event Q 60) with Some x => x | None => 0 end in
  ui_tick Q 0 q_label u = mkUi Q [] x (q_label x).
Proof.
  intros u.
  apply (ui_tick_shows_last_fps Q 0 q_label u
           [fps_event Q 30; mkEvt Q "vibe" None] [mkEvt Q "vibe" None] (fps_event Q 60));
    reflexivity.
Defined.

Lemma ui_tick_keeps_value_witness :
  let u := mkUi Q [mkEvt Q "vibe" None; mkEvt Q "vibe" (Some 1)] 60 "FPS: 60" in
  ui_tick Q 0 q_label u = mkUi Q [] (fps_value Q u) (q_label (fps_value Q u)).
Proof. intros u. apply (ui_tick_keeps_value Q 0 q_label u). reflexivity. Defined.

Lemma report_counts_window_witness :
  let run := run_loop Q 2 (314 # 100) 1000 (1 # 4) Qplus Qminus Qmult Qdiv q_geb inject_Z in
  let st := mkLoop Q 0 0 0 0 in
  let ticks := [(10%Z, 1 # 10); (10%Z, 2 # 10)] in
  snd (run st [] ticks) = [] /\
  frames Q (fst (run st [] ticks)) = (frames Q st + Z.of_nat (length ticks))%Z /\
  last_report Q (fst (run st [] ticks)) = last_report Q st /\
  snd (run st [] (ticks ++ [(10%Z, 3 # 10)])) =
    [] ++ [fps_event Q (Qdiv (inject_Z (frames Q st + Z.of_nat (length ticks) + 1)%Z)
                             (Qminus (3 # 10) (last_report Q st)))] /\
  frames Q (fst (run st [] (ticks ++ [(10%Z, 3 # 10)]))) = 0%Z /\
  last_report Q (fst (run st [] (ticks ++ [(10%Z, 3 # 10)]))) = (3 # 10).
Proof.
  intros run st ticks.
  apply (report_counts_window Q 2 (314 # 100) 1000 (1 # 4) Qplus Qminus Qmult Qdiv q_geb
           inject_Z st [] ticks 10 (3 # 10)).
  - apply Forall_forall. intros t Ht. simpl in Ht.
    destruct Ht as [<-|[<-|[]]]; reflexivity.
  - reflexivity.
Defined.

(** C7, counterexample: 14 ticks into a window, a tick of 10 ms at
    0.25 s after the last report publishes 60 fps and resets [frames], but
    [acc_time] is 0.25, not 0. *)
Lemma acc_time_not_reset :
  let res := q_tick (mkLoop Q (24 # 100) 14 0 0) [] 10 (1 # 4) in
  map (fun e => Qeq_bool match evalue Q e with Some v => v | None => 0 end 60) (snd res) = [true] /\
  frames Q (fst res) = 0%Z /\
  Qeq_bool (acc_time Q (fst res)) (1 # 4) = true /\
  Qeq_bool (acc_time Q (fst res)) 0 = false.
Proof. vm_compute. repeat split; reflexivity. Qed.

End MetricsFacts.
